(** * LinkedIn profile scraper: a shallow embedding of
      [linkedin-scraper/linkedin-scraper-auto.py]

    The methods of [LinkedInScraper] are embedded as computations of a
    state-and-exception monad over an explicit [World] (the scraper object,
    the file system, the random generator, the clock and the console).
    Selenium's driver is an interface ([WebDriver]); BeautifulSoup's tree
    and its [find]/[find_all] are modelled concretely. *)

From stdpp Require Import base list strings gmap.
From Stdlib Require Import Ascii String ZArith QArith Lia DecimalString.

Set Warnings "-register-all".

Local Open Scope string_scope.
Local Open Scope Z_scope.
Local Open Scope list_scope.

(** ** Python strings *)

Module Py.

(** [str.isspace] on the code points below 256. *)
Definition isspace (c : ascii) : bool :=
  let n := nat_of_ascii c in
  ((9 <=? n)%nat && (n <=? 13)%nat) || ((28 <=? n)%nat && (n <=? 32)%nat)
  || (n =? 133)%nat || (n =? 160)%nat.

Fixpoint lstrip (s : string) : string :=
  match s with
  | EmptyString => EmptyString
  | String c s' => if isspace c then lstrip s' else s
  end.

(** [rstrip] keeps a character when something other than white space
    follows it or when it is not white space itself. *)
Fixpoint rstrip (s : string) : string :=
  match s with
  | EmptyString => EmptyString
  | String c s' =>
      match rstrip s' with
      | EmptyString => if isspace c then EmptyString else String c EmptyString
      | r => String c r
      end
  end.

(** [s.strip()] *)
Definition strip (s : string) : string := rstrip (lstrip s).

(** [needle in s] on strings. *)
Fixpoint contains (needle s : string) : bool :=
  String.prefix needle s ||
  match s with
  | EmptyString => false
  | String _ s' => contains needle s'
  end.

(** [sep.join(l)] *)
Fixpoint join (sep : string) (l : list string) : string :=
  match l with
  | [] => ""
  | [x] => x
  | x :: l' => x ++ sep ++ join sep l'
  end.

(** [s * n] *)
Fixpoint repeat_str (s : string) (n : nat) : string :=
  match n with
  | O => ""
  | S n' => s ++ repeat_str s n'
  end.

(** [str(z)] for an integer. *)
Definition str_of_Z (z : Z) : string := NilZero.string_of_int (Z.to_int z).

(** Truthiness of an optional string: [None] and [''] are false. *)
Definition truthy (x : option string) : bool :=
  match x with
  | None => false
  | Some s => negb (String.eqb s "")
  end.

End Py.

(** ** BeautifulSoup trees *)

Module Bs4.

(** An attribute holds one string, or a list of them for the multi-valued
    attributes such as [class]. *)
Inductive AttrValue :=
| Single (s : string)
| Multi (l : list string).

Inductive PageElement :=
| NavigableString (s : string)
| Tag (name : string) (attrs : list (string * AttrValue))
      (contents : list PageElement).

(** What an attribute is matched against: a callable or a string. *)
Inductive Matcher :=
| MFun (f : option string -> bool)
| MStr (s : string).

Definition attr_get (k : string) (attrs : list (string * AttrValue))
  : option AttrValue :=
  snd <$> List.find (fun kv => String.eqb (fst kv) k) attrs.

(** [SoupStrainer._matches]: a multi-valued attribute matches when one of
    its values does or when the values joined by a space do. *)
Definition match_one (markup : option string) (m : Matcher) : bool :=
  match m with
  | MFun f => f markup
  | MStr s => match markup with
              | None => false
              | Some v => String.eqb v s
              end
  end.

Definition _matches (markup : option AttrValue) (m : Matcher) : bool :=
  match markup with
  | None => match_one None m
  | Some (Single v) => match_one (Some v) m
  | Some (Multi l) =>
      existsb (fun item => match_one (Some item) m) l
      || match_one (Some (Py.join " " l)) m
  end.

(** [Tag.descendants]: every node below, in document order. *)
Fixpoint descendants (e : PageElement) : list PageElement :=
  match e with
  | NavigableString _ => []
  | Tag _ _ cs => flat_map (fun c => c :: descendants c) cs
  end.

Definition search_tag (name : string) (attrs : list (string * Matcher))
  (e : PageElement) : bool :=
  match e with
  | NavigableString _ => false
  | Tag n have _ =>
      String.eqb n name
      && forallb (fun km => _matches (attr_get (fst km) have) (snd km)) attrs
  end.

(** [tag.find_all(name, attrs)] and [tag.find(name, attrs)]. *)
Definition find_all (e : PageElement) (name : string)
  (attrs : list (string * Matcher)) : list PageElement :=
  List.filter (search_tag name attrs) (descendants e).

Definition find (e : PageElement) (name : string)
  (attrs : list (string * Matcher)) : option PageElement :=
  head (find_all e name attrs).

(** [tag.get_text()]: the strings below the tag, concatenated. *)
Definition own_string (e : PageElement) : string :=
  match e with
  | NavigableString s => s
  | Tag _ _ _ => ""
  end.

Definition get_text (e : PageElement) : string :=
  match e with
  | NavigableString s => s
  | Tag _ _ _ => String.concat "" (own_string <$> descendants e)
  end.

End Bs4.

(** ** Exceptions, cookies and the outside world *)

(** The subclasses of [Exception] the program can meet; each carries the
    text [str(e)] gives. *)
Inductive Exception :=
| AttributeError (msg : string)
| TypeError (msg : string)
| ZeroDivisionError (msg : string)
| OSError (msg : string)
| UnpicklingError (msg : string)
| WebDriverException (msg : string)
| TimeoutException (msg : string).

Definition str (e : Exception) : string :=
  match e with
  | AttributeError m | TypeError m | ZeroDivisionError m | OSError m
  | UnpicklingError m | WebDriverException m | TimeoutException m => m
  end.

Definition Res (A : Type) : Type := (Exception + A)%type.

(** One entry of [driver.get_cookies()]. *)
Record Cookie := mkCookie {
  name : string;
  value : string;
  domain : string;
  path : string;
  expiry : option Z
}.

(** What [driver.execute_script] hands back. *)
Inductive JsValue :=
| JsNone
| JsInt (z : Z).

(** Selenium's driver, as far as the scraper calls it.  Every call may
    raise and may change the browser. *)
Class WebDriver (D : Type) := {
  wd_get : string -> D -> Res unit * D;
  wd_execute_script : string -> D -> Res JsValue * D;
  wd_page_source : D -> Res string * D;
  wd_get_cookies : D -> Res (list Cookie) * D;
  wd_add_cookie : Cookie -> D -> Res unit * D
}.

(** [pickle.dumps] and [pickle.loads] on cookie lists; loading fails on
    bytes that are no pickle. *)
Class Pickle := {
  pickle_dumps : list Cookie -> string;
  pickle_loads : string -> option (list Cookie)
}.

(** [BeautifulSoup(markup, 'lxml')] *)
Class HtmlParser := {
  BeautifulSoup : string -> Bs4.PageElement
}.

(** Everything the script imports, bundled: the browser behind Selenium,
    [pickle] and the HTML parser. *)
Class Platform := {
  Driver : Type;
  platform_driver :: WebDriver Driver;
  platform_pickle :: Pickle;
  platform_parser :: HtmlParser
}.

(** Files: their bytes and what the process may do with them. *)
Record File := mkFile {
  content : string;
  readable : bool;
  writable : bool
}.

(** The directory the program works in: its entries, whether the process
    may create entries in it and whether it may look entries up in it at
    all (the directory's search permission). *)
Record FileSystem := mkFS {
  files : gmap string File;
  dir_writable : bool;
  dir_searchable : bool
}.

(** A printed line: literal text and numbers formatted with [:.1f]. *)
Inductive Fragment :=
| Lit (s : string)
| Fixed1 (q : Q).

(** Python values stored in a profile record. *)
Inductive PyValue :=
| PyStr (s : string)
| PyList (l : list PyValue)
| PyDict (d : list (string * PyValue)).

Definition Dict : Type := list (string * PyValue).

Definition dict_get (k : string) (d : Dict) : option PyValue :=
  snd <$> List.find (fun kv => String.eqb (fst kv) k) d.

(** [k in d] *)
Definition dict_mem (k : string) (d : Dict) : bool :=
  existsb (fun kv => String.eqb (fst kv) k) d.

(** ** The scraper object, the world and the monad of its methods *)

Section Scraper.

Context `{P : Platform}.

(** The attributes [__init__] sets; [driver] is [None] until
    [_setup_driver] has run. *)
Record LinkedInScraper := mkScraper {
  email : string;
  password : string;
  use_proxy : bool;
  proxy : option string;
  driver : option Driver;
  cookies_file : string
}.

Record World := mkWorld {
  self : LinkedInScraper;
  fs : FileSystem;
  (** the raw draws of [random] and how many were taken *)
  rng : nat -> Z;
  rng_pos : nat;
  (** seconds slept so far *)
  clock : Q;
  (** the lines printed so far, last first *)
  stdout : list (list Fragment)
}.

Definition set_driver (d : option Driver) (w : World) : World :=
  let s := self w in
  mkWorld (mkScraper (email s) (password s) (use_proxy s) (proxy s) d
             (cookies_file s))
    (fs w) (rng w) (rng_pos w) (clock w) (stdout w).

Definition set_fs (f : FileSystem) (w : World) : World :=
  mkWorld (self w) f (rng w) (rng_pos w) (clock w) (stdout w).

Inductive Outcome (A : Type) :=
| Return (a : A) (w : World)
| Raise (e : Exception) (w : World)
| OutOfFuel.
Arguments Return {A} a w.
Arguments Raise {A} e w.
Arguments OutOfFuel {A}.

Definition M (A : Type) : Type := World -> Outcome A.

Definition ret {A} (a : A) : M A := fun w => Return a w.

Definition bind {A B} (m : M A) (k : A -> M B) : M B := fun w =>
  match m w with
  | Return a w' => k a w'
  | Raise e w' => Raise e w'
  | OutOfFuel => OutOfFuel
  end.

Definition raise {A} (e : Exception) : M A := fun w => Raise e w.

Definition out_of_fuel {A} : M A := fun _ => OutOfFuel.

(** [try: body  except Exception as e: handler e] *)
Definition try_except {A} (body : M A) (handler : Exception -> M A) : M A :=
  fun w =>
    match body w with
    | Return a w' => Return a w'
    | Raise e w' => handler e w'
    | OutOfFuel => OutOfFuel
    end.

Notation "x <- m ;; k" := (bind m (fun x => k))
  (at level 100, m at next level, right associativity).
Notation "m ;;; k" := (bind m (fun _ => k))
  (at level 100, right associativity).

(** [for x in l: acc = body x acc] *)
Fixpoint for_each {A S} (l : list A) (body : A -> S -> M S) (acc : S) : M S :=
  match l with
  | [] => ret acc
  | x :: l' => acc' <- body x acc ;; for_each l' body acc'
  end.

(** *** Primitives *)

Definition print (line : list Fragment) : M unit := fun w =>
  Return tt (mkWorld (self w) (fs w) (rng w) (rng_pos w) (clock w)
               (line :: stdout w)).

Definition next_draw : M Z := fun w =>
  Return (rng w (rng_pos w))
    (mkWorld (self w) (fs w) (rng w) (S (rng_pos w)) (clock w) (stdout w)).

(** [random.randint(a, b)]: an integer of [a..b]. *)
Definition random_randint (a b : Z) : M Z :=
  r <- next_draw ;; ret (a + r mod (b - a + 1)).

(** [random.uniform(a, b)]: [a + (b - a) * random()], [random()] a
    53-bit fraction of [0, 1).  The value is the exact one; Python
    computes it in double precision, where rounding can turn a value
    just below [b] into [b] itself, so of the result only the closed
    bounds [a] and [b] are relied on. *)
Definition random_uniform (a b : Q) : M Q :=
  r <- next_draw ;;
  ret (a + (b - a) * (r mod 9007199254740992 # 9007199254740992))%Q.

Definition time_sleep (secs : Q) : M unit := fun w =>
  Return tt (mkWorld (self w) (fs w) (rng w) (rng_pos w)
               (clock w + secs)%Q (stdout w)).

(** [self.driver.attr(...)]: an [AttributeError] when [self.driver] is
    [None]. *)
Definition driver_call {A} (attr : string) (op : Driver -> Res A * Driver) : M A :=
  fun w =>
    match driver (self w) with
    | None =>
        Raise (AttributeError
                 ("'NoneType' object has no attribute '" ++ attr ++ "'")) w
    | Some d =>
        let (r, d') := op d in
        match r with
        | inl e => Raise e (set_driver (Some d') w)
        | inr a => Return a (set_driver (Some d') w)
        end
    end.

(** The [PermissionError] of a system call on [p]. *)
Definition permission_denied (p : string) : Exception :=
  OSError ("[Errno 13] Permission denied: '" ++ p ++ "'").

(** [Path(p).exists()]: pathlib calls [stat] and answers [False] only for
    the errors that say the entry is not there (ENOENT, ENOTDIR, EBADF,
    ELOOP); any other [OSError] is raised again, as is the EACCES of a
    directory that may not be searched. *)
Definition path_exists (p : string) : M bool := fun w =>
  if dir_searchable (fs w) then
    Return (bool_decide (is_Some (files (fs w) !! p))) w
  else Raise (permission_denied p) w.

(** [open(p, 'wb')] or [open(p, 'w')]: creates or truncates the file. *)
Definition open_w (p : string) : M unit := fun w =>
  if dir_searchable (fs w) then
    match files (fs w) !! p with
    | Some f =>
        if writable f then
          Return tt (set_fs (mkFS (<[p := mkFile "" (readable f) true]>
                                     (files (fs w)))
                               (dir_writable (fs w)) (dir_searchable (fs w))) w)
        else Raise (permission_denied p) w
    | None =>
        if dir_writable (fs w) then
          Return tt (set_fs (mkFS (<[p := mkFile "" true true]> (files (fs w)))
                               (dir_writable (fs w)) (dir_searchable (fs w))) w)
        else Raise (permission_denied p) w
    end
  else Raise (permission_denied p) w.

(** [f.write(data)] on the file opened at [p]. *)
Definition file_write (p : string) (data : string) : M unit := fun w =>
  match files (fs w) !! p with
  | Some f =>
      Return tt (set_fs (mkFS (<[p := mkFile (content f ++ data) (readable f)
                                        (writable f)]> (files (fs w)))
                           (dir_writable (fs w)) (dir_searchable (fs w))) w)
  | None => Raise (OSError "I/O operation on closed file") w
  end.

(** [open(p, 'rb').read()] *)
Definition open_r (p : string) : M string := fun w =>
  if dir_searchable (fs w) then
    match files (fs w) !! p with
    | Some f =>
        if readable f then Return (content f) w
        else Raise (permission_denied p) w
    | None =>
        Raise (OSError ("[Errno 2] No such file or directory: '" ++ p ++ "'")) w
    end
  else Raise (permission_denied p) w.

(** [pickle.load(f)] *)
Definition pickle_load (data : string) : M (list Cookie) :=
  match pickle_loads data with
  | Some v => ret v
  | None => raise (UnpicklingError "invalid load key")
  end.

(** [a < b] and [a >= b] between a Python integer and a script result. *)
Definition py_lt (a : Z) (b : JsValue) : M bool :=
  match b with
  | JsInt z => ret (a <? z)
  | JsNone =>
      raise (TypeError
        "'<' not supported between instances of 'int' and 'NoneType'")
  end.

Definition py_ge (a : Z) (b : JsValue) : M bool :=
  match b with
  | JsInt z => ret (a >=? z)
  | JsNone =>
      raise (TypeError
        "'>=' not supported between instances of 'int' and 'NoneType'")
  end.

(** ** The methods of [LinkedInScraper] *)

Definition get_self : M LinkedInScraper := fun w => Return (self w) w.

(** [_random_sleep(min_sec, max_sec)] *)
Definition _random_sleep (min_sec max_sec : Q) : M unit :=
  sleep_time <- random_uniform min_sec max_sec ;;
  time_sleep sleep_time.

(** The [while] loop of [_scroll_slowly]; one unit of fuel per turn. *)
Fixpoint scroll_loop (fuel : nat) (current_position : Z)
  (total_height : JsValue) : M unit :=
  match fuel with
  | O => out_of_fuel
  | S fuel' =>
      go <- py_lt current_position total_height ;;
      if go : bool then
        scroll_distance <- random_randint 200 400 ;;
        let current_position := current_position + scroll_distance in
        driver_call "execute_script"
          (wd_execute_script
             ("window.scrollTo(0, " ++ Py.str_of_Z current_position ++ ");")) ;;;
        _random_sleep (1 # 2) (3 # 2) ;;;
        total_height <- driver_call "execute_script"
          (wd_execute_script "return document.body.scrollHeight") ;;
        stop <- py_ge current_position total_height ;;
        if stop : bool then ret tt
        else scroll_loop fuel' current_position total_height
      else ret tt
  end.

Definition _scroll_slowly (fuel : nat) : M unit :=
  try_except
    (total_height <- driver_call "execute_script"
       (wd_execute_script "return document.body.scrollHeight") ;;
     viewport_height <- driver_call "execute_script"
       (wd_execute_script "return window.innerHeight") ;;
     let current_position := 0 in
     scroll_loop fuel current_position total_height)
    (fun e => print [Lit ("⚠ Error during scrolling: " ++ str e)]).

Definition save_cookies : M unit :=
  s <- get_self ;;
  try_except
    (open_w (cookies_file s) ;;;
     cookies <- driver_call "get_cookies" wd_get_cookies ;;
     file_write (cookies_file s) (pickle_dumps cookies) ;;;
     print [Lit ("✓ Cookies saved to " ++ cookies_file s)])
    (fun e => print [Lit ("⚠ Error saving cookies: " ++ str e)]).

Definition load_cookies : M bool :=
  s <- get_self ;;
  let cookies_path := cookies_file s in
  found <- path_exists cookies_path ;;
  if found : bool then
    try_except
      (driver_call "get" (wd_get "https://www.linkedin.com") ;;;
       data <- open_r (cookies_file s) ;;
       cookies <- pickle_load data ;;
       for_each cookies
         (fun cookie _ =>
            try_except (driver_call "add_cookie" (wd_add_cookie cookie))
              (fun e => ret tt))
         tt ;;;
       print [Lit "✓ Cookies loaded successfully"] ;;;
       ret true)
      (fun e => print [Lit ("⚠ Error loading cookies: " ++ str e)] ;;; ret false)
  else ret false.

(** *** Field extraction *)

(** [lambda x: x and needle in x] *)
Definition class_has (needle : string) (x : option string) : bool :=
  Py.truthy x &&
  match x with
  | Some v => Py.contains needle v
  | None => false
  end.

(** [lambda x: x and needle in x if x else False] *)
Definition class_has_or_false (needle : string) (x : option string) : bool :=
  if Py.truthy x then class_has needle x else false.

(** [el.get_text().strip()] *)
Definition text_of (el : Bs4.PageElement) : string :=
  Py.strip (Bs4.get_text el).

(** The body of each extractor yields [Some v] when it executes
    [return v] and [None] when control reaches the end of the [try]. *)
Definition _extract_name (soup : Bs4.PageElement) : M string :=
  r <- try_except
         (let name_element :=
            Bs4.find soup "h1"
              [("class", Bs4.MFun (class_has "text-heading-xlarge"))] in
          match name_element with
          | Some el => ret (Some (text_of el))
          | None =>
              let name_element :=
                Bs4.find soup "h1"
                  [("class", Bs4.MStr "pv-text-details__left-panel")] in
              match name_element with
              | Some el => ret (Some (text_of el))
              | None => ret None
              end
          end)
         (fun e => ret None) ;;
  match r with
  | Some v => ret v
  | None => ret "N/A"
  end.

Definition _extract_headline (soup : Bs4.PageElement) : M string :=
  r <- try_except
         (let headline :=
            Bs4.find soup "div"
              [("class", Bs4.MFun (class_has "text-body-medium"))] in
          match headline with
          | Some el => ret (Some (text_of el))
          | None => ret None
          end)
         (fun e => ret None) ;;
  match r with
  | Some v => ret v
  | None => ret "N/A"
  end.

Definition _extract_location (soup : Bs4.PageElement) : M string :=
  r <- try_except
         (let location :=
            Bs4.find soup "span"
              [("class", Bs4.MFun (class_has "text-body-small"))] in
          match location with
          | Some el => ret (Some (text_of el))
          | None => ret None
          end)
         (fun e => ret None) ;;
  match r with
  | Some v => ret v
  | None => ret "N/A"
  end.

Definition _extract_about (soup : Bs4.PageElement) : M string :=
  r <- try_except
         (let about_section :=
            Bs4.find soup "div"
              [("class", Bs4.MFun (class_has_or_false "pv-about"))] in
          match about_section with
          | Some sec =>
              let about_text :=
                Bs4.find sec "div"
                  [("class",
                    Bs4.MFun (class_has_or_false "inline-show-more-text"))] in
              match about_text with
              | Some el => ret (Some (text_of el))
              | None => ret None
              end
          | None => ret None
          end)
         (fun e => ret None) ;;
  match r with
  | Some v => ret v
  | None => ret "N/A"
  end.

(** [el.get_text().strip() if el else 'N/A'] *)
Definition text_or_na (el : option Bs4.PageElement) : string :=
  match el with
  | Some e => text_of e
  | None => "N/A"
  end.

Definition _extract_experience (soup : Bs4.PageElement) : M (list Dict) :=
  let experiences := [] in
  try_except
    (let exp_section :=
       Bs4.find soup "section"
         [("id", Bs4.MFun (class_has_or_false "experience"))] in
     match exp_section with
     | Some sec =>
         let exp_items :=
           Bs4.find_all sec "li"
             [("class", Bs4.MFun (class_has_or_false "profile-section-card"))] in
         for_each (take 5 exp_items)
           (fun item experiences =>
              try_except
                (let title :=
                   Bs4.find item "div"
                     [("class", Bs4.MFun (class_has_or_false "mr1"))] in
                 let company :=
                   Bs4.find item "span"
                     [("class", Bs4.MFun (class_has_or_false "t-14"))] in
                 let exp_data :=
                   [("title", PyStr (text_or_na title));
                    ("company", PyStr (text_or_na company))] in
                 ret (experiences ++ [exp_data]))
                (fun e => ret experiences))
           experiences
     | None => ret experiences
     end)
    (fun e => ret experiences).

Definition _extract_education (soup : Bs4.PageElement) : M (list Dict) :=
  let education := [] in
  try_except
    (let edu_section :=
       Bs4.find soup "section"
         [("id", Bs4.MFun (class_has_or_false "education"))] in
     match edu_section with
     | Some sec =>
         let edu_items :=
           Bs4.find_all sec "li"
             [("class", Bs4.MFun (class_has_or_false "profile-section-card"))] in
         for_each (take 3 edu_items)
           (fun item education =>
              try_except
                (let school :=
                   Bs4.find item "div"
                     [("class", Bs4.MFun (class_has_or_false "mr1"))] in
                 let degree :=
                   Bs4.find item "span"
                     [("class", Bs4.MFun (class_has_or_false "t-14"))] in
                 let edu_data :=
                   [("school", PyStr (text_or_na school));
                    ("degree", PyStr (text_or_na degree))] in
                 ret (education ++ [edu_data]))
                (fun e => ret education))
           education
     | None => ret education
     end)
    (fun e => ret education).

Definition _extract_skills (soup : Bs4.PageElement) : M (list string) :=
  let skills := [] in
  try_except
    (let skills_section :=
       Bs4.find soup "section"
         [("id", Bs4.MFun (class_has_or_false "skills"))] in
     match skills_section with
     | Some sec =>
         let skill_items :=
           Bs4.find_all sec "div"
             [("class", Bs4.MFun (class_has_or_false "mr1"))] in
         for_each (take 10 skill_items)
           (fun item skills =>
              let skill_text := text_of item in
              if Py.truthy (Some skill_text) then ret (skills ++ [skill_text])
              else ret skills)
           skills
     | None => ret skills
     end)
    (fun e => ret skills).

(** *** Scraping one profile *)

Definition scrape_profile (fuel : nat) (profile_url : string) : M Dict :=
  print [Lit ("→ Scraping profile: " ++ profile_url)] ;;;
  try_except
    (driver_call "get" (wd_get profile_url) ;;;
     _random_sleep 3 5 ;;;
     print [Lit "  → Scrolling to load content..."] ;;;
     _scroll_slowly fuel ;;;
     _random_sleep 2 3 ;;;
     page_source <- driver_call "page_source" wd_page_source ;;
     let soup := BeautifulSoup page_source in
     v_name <- _extract_name soup ;;
     v_headline <- _extract_headline soup ;;
     v_location <- _extract_location soup ;;
     v_about <- _extract_about soup ;;
     v_experience <- _extract_experience soup ;;
     v_education <- _extract_education soup ;;
     v_skills <- _extract_skills soup ;;
     let profile_data : Dict :=
       [("url", PyStr profile_url);
        ("name", PyStr v_name);
        ("headline", PyStr v_headline);
        ("location", PyStr v_location);
        ("about", PyStr v_about);
        ("experience", PyList (PyDict <$> v_experience));
        ("education", PyList (PyDict <$> v_education));
        ("skills", PyList (PyStr <$> v_skills))] in
     print [Lit ("✓ Successfully scraped profile: " ++
                 match dict_get "name" profile_data with
                 | Some (PyStr n) => n
                 | _ => "Unknown"
                 end)] ;;;
     ret profile_data)
    (fun e =>
       print [Lit ("✗ Error scraping profile " ++ profile_url ++ ": " ++ str e)] ;;;
       ret [("url", PyStr profile_url); ("error", PyStr (str e))]).

(** *** Writing the table *)

Definition dquote : string := String (ascii_of_nat 34) "".
Definition newline : string := String (ascii_of_nat 10) "".
Definition crlf : string := String (ascii_of_nat 13) newline.

Fixpoint double_quotes (s : string) : string :=
  match s with
  | EmptyString => EmptyString
  | String c s' =>
      if Ascii.eqb c (ascii_of_nat 34) then String c (String c (double_quotes s'))
      else String c (double_quotes s')
  end.

(** A field of the [csv] module's default dialect: quoted when it holds a
    comma, a quote or a line break. *)
Definition csv_field (s : string) : string :=
  if Py.contains "," s || Py.contains dquote s
     || Py.contains newline s || Py.contains (String (ascii_of_nat 13) "") s
  then dquote ++ double_quotes s ++ dquote
  else s.

Definition csv_row (cells : list string) : string :=
  Py.join "," (csv_field <$> cells) ++ crlf.

(** [profile.get(k, '')] for the keys of the table, which hold strings in
    every record [scrape_profile] builds (see [table_ready]); a value of
    another kind is outside what this covers. *)
Definition get_str (k : string) (profile : Dict) : string :=
  match dict_get k profile with
  | Some (PyStr v) => v
  | _ => ""
  end.

Definition _save_to_csv (profiles : list Dict) (filename : string) : M unit :=
  match profiles with
  | [] => print [Lit "✗ No profiles to save"]
  | _ =>
      let columns := ["url"; "name"; "headline"; "location"; "about"] in
      try_except
        (open_w filename ;;;
         file_write filename (csv_row columns) ;;;
         for_each profiles
           (fun profile _ =>
              let row :=
                [get_str "url" profile;
                 get_str "name" profile;
                 get_str "headline" profile;
                 get_str "location" profile;
                 if Py.truthy (Some (get_str "about" profile))
                 then String.substring 0 500 (get_str "about" profile)
                 else ""] in
              file_write filename (csv_row row))
           tt ;;;
         print [Lit (newline ++ "✓ Successfully saved " ++
                     Py.str_of_Z (Z.of_nat (List.length profiles)) ++
                     " profiles to " ++ filename)])
        (fun e => print [Lit ("✗ Error saving to CSV: " ++ str e)])
  end.

(** *** The batch *)

(** [enumerate(l, start)] *)
Fixpoint enumerate {A} (start : Z) (l : list A) : list (Z * A) :=
  match l with
  | [] => []
  | x :: l' => (start, x) :: enumerate (start + 1) l'
  end.

(** [a / b] on integers, as a fraction. *)
Definition true_div (a b : Z) : M Q :=
  if b =? 0 then raise (ZeroDivisionError "division by zero")
  else ret (a # Z.to_pos b).

(** The locals of the batch loop: [all_profiles], [successful], [failed]. *)
Definition BatchState : Type := (list Dict * Z * Z)%type.

Definition batch_step (fuel : nat) (total : Z) (iu : Z * string)
  (st : BatchState) : M BatchState :=
  let '(i, url) := iu in
  let '(all_profiles, successful, failed) := st in
  print [Lit (newline ++ Py.repeat_str "=" 70)] ;;;
  print [Lit ("Processing profile " ++ Py.str_of_Z i ++ "/" ++
              Py.str_of_Z total)] ;;;
  print [Lit (Py.repeat_str "=" 70)] ;;;
  profile_data <- scrape_profile fuel url ;;
  let all_profiles := all_profiles ++ [profile_data] in
  let '(successful, failed) :=
    if dict_mem "error" profile_data then (successful, failed + 1)
    else (successful + 1, failed) in
  (if i <? total then
     delay <- random_uniform 5 10 ;;
     print [Lit "→ Waiting "; Fixed1 delay;
            Lit " seconds before next profile..."] ;;;
     time_sleep delay
   else ret tt) ;;;
  ret (all_profiles, successful, failed).

Definition batch_loop (fuel : nat) (profile_urls : list string)
  : M BatchState :=
  for_each (enumerate 1 profile_urls)
    (batch_step fuel (Z.of_nat (List.length profile_urls)))
    ([], 0, 0).

Definition scrape_multiple_profiles (fuel : nat) (profile_urls : list string)
  (output_file : string) : M (list Dict) :=
  st <- batch_loop fuel profile_urls ;;
  let '(all_profiles, successful, failed) := st in
  _save_to_csv all_profiles output_file ;;;
  print [Lit (newline ++ Py.repeat_str "=" 70)] ;;;
  print [Lit "Scraping Complete!"] ;;;
  print [Lit (Py.repeat_str "=" 70)] ;;;
  print [Lit ("Total profiles processed: " ++
              Py.str_of_Z (Z.of_nat (List.length profile_urls)))] ;;;
  print [Lit ("Successful: " ++ Py.str_of_Z successful)] ;;;
  print [Lit ("Failed: " ++ Py.str_of_Z failed)] ;;;
  rate <- true_div successful (Z.of_nat (List.length profile_urls)) ;;
  print [Lit "Success rate: "; Fixed1 (rate * 100); Lit "%"] ;;;
  ret all_profiles.

(** ** Auxiliary definitions for the properties *)

(** [pure_comp m v]: from every world, [m] returns [v] and leaves the
    world as it found it. *)
Definition pure_comp {A} (m : M A) (v : A) : Prop :=
  forall w, m w = Return v w.

(** Running [m] twice in a row. *)
Definition twice {A} (m : M A) : M (A * A) :=
  a <- m ;; b <- m ;; ret (a, b).

(** A selector strategy: the node it picks, if any. *)
Definition Selector : Type := Bs4.PageElement -> option Bs4.PageElement.

Definition name_selectors : list Selector :=
  [fun soup => Bs4.find soup "h1"
                 [("class", Bs4.MFun (class_has "text-heading-xlarge"))];
   fun soup => Bs4.find soup "h1"
                 [("class", Bs4.MStr "pv-text-details__left-panel")]].

Definition headline_selectors : list Selector :=
  [fun soup => Bs4.find soup "div"
                 [("class", Bs4.MFun (class_has "text-body-medium"))]].

Definition location_selectors : list Selector :=
  [fun soup => Bs4.find soup "span"
                 [("class", Bs4.MFun (class_has "text-body-small"))]].

Definition about_selectors : list Selector :=
  [fun soup =>
     match Bs4.find soup "div"
             [("class", Bs4.MFun (class_has_or_false "pv-about"))] with
     | Some sec =>
         Bs4.find sec "div"
           [("class", Bs4.MFun (class_has_or_false "inline-show-more-text"))]
     | None => None
     end].

(** The rule of the specification for a core field: the trimmed text of
    the first selector that matches, the sentinel when none does. *)
Fixpoint first_match (sels : list Selector) (soup : Bs4.PageElement)
  : option Bs4.PageElement :=
  match sels with
  | [] => None
  | sel :: rest =>
      match sel soup with
      | Some el => Some el
      | None => first_match rest soup
      end
  end.

Definition field_rule (sentinel : string) (sels : list Selector)
  (soup : Bs4.PageElement) : string :=
  match first_match sels soup with
  | Some el => Py.strip (Bs4.get_text el)
  | None => sentinel
  end.

Definition experience_entry (item : Bs4.PageElement) : Dict :=
  [("title",
    PyStr (text_or_na (Bs4.find item "div"
             [("class", Bs4.MFun (class_has_or_false "mr1"))])));
   ("company",
    PyStr (text_or_na (Bs4.find item "span"
             [("class", Bs4.MFun (class_has_or_false "t-14"))])))].

Definition education_entry (item : Bs4.PageElement) : Dict :=
  [("school",
    PyStr (text_or_na (Bs4.find item "div"
             [("class", Bs4.MFun (class_has_or_false "mr1"))])));
   ("degree",
    PyStr (text_or_na (Bs4.find item "span"
             [("class", Bs4.MFun (class_has_or_false "t-14"))])))].

(** One turn of the skills loop. *)
Definition add_skill (skills : list string) (item : Bs4.PageElement)
  : list string :=
  if Py.truthy (Some (text_of item)) then skills ++ [text_of item] else skills.

(** The result of [m] does not depend on the world, [m] leaves the world
    alone, and so a second run gives what the first gave. *)
Definition deterministic {A} (m : M A) : Prop :=
  exists v, forall w, m w = Return v w /\ twice m w = Return (v, v) w.

(** *** Trimmed strings *)

Definition first_char (s : string) : option ascii :=
  match s with
  | EmptyString => None
  | String c _ => Some c
  end.

Fixpoint last_char (s : string) : option ascii :=
  match s with
  | EmptyString => None
  | String c EmptyString => Some c
  | String _ s' => last_char s'
  end.

Definition space_at (c : option ascii) : bool :=
  match c with
  | Some c => Py.isspace c
  | None => false
  end.

Definition trimmed (s : string) : Prop :=
  space_at (first_char s) = false /\ space_at (last_char s) = false.

(** *** The two shapes of a profile record *)

Definition core_fields : list string :=
  ["name"; "headline"; "location"; "about"].

Definition list_fields : list string :=
  ["experience"; "education"; "skills"].

(** A core value: the sentinel, or the trimmed text of a node of the
    page. *)
Definition extracted_or (sentinel : string) (soup : Bs4.PageElement)
  (v : PyValue) : Prop :=
  exists s, v = PyStr s /\
    (s = sentinel \/
     exists el, In el (Bs4.descendants soup) /\ s = text_of el).

Definition success_shape (sentinel : string) (soup : Bs4.PageElement)
  (r : Dict) : Prop :=
  (forall k, In k core_fields ->
     exists v, dict_get k r = Some v /\ extracted_or sentinel soup v) /\
  (forall k, In k list_fields -> exists l, dict_get k r = Some (PyList l)).

Definition error_shape (r : Dict) : Prop :=
  dict_mem "error" r = true /\
  forall k, In k (core_fields ++ list_fields) -> dict_get k r = None.

(** [src] is a page source the browser serves in some state. *)
Definition served (src : string) : Prop :=
  exists d d', wd_page_source d = (inr src, d').

Definition extracted_from_page (sentinel : string) (r : Dict) : Prop :=
  exists src, served src /\ success_shape sentinel (BeautifulSoup src) r.

Definition record_shape (sentinel : string) (r : Dict) : Prop :=
  (extracted_from_page sentinel r /\ ~ error_shape r) \/
  (error_shape r /\ ~ extracted_from_page sentinel r).

(** *** Assumptions on the page height *)

(** No measurement of the document height exceeds [H]. *)
Definition heights_bounded (H : Z) : Prop :=
  forall d,
    match fst (wd_execute_script "return document.body.scrollHeight" d) with
    | inr (JsInt z) => z <= H
    | _ => True
    end.

(** Every measurement of the document height gives [H]. *)
Definition heights_fixed (H : Z) : Prop :=
  forall d,
    fst (wd_execute_script "return document.body.scrollHeight" d)
    = inr (JsInt H).

Definition height_ok (H : Z) (th : JsValue) : Prop :=
  match th with
  | JsInt z => z <= H
  | JsNone => True
  end.

(** Turns of the scroll loop that certainly suffice below height [H]. *)
Definition enough_fuel (H : Z) : nat := Z.to_nat (H / 200) + 2.

(** *** The session store *)

(** The browser after each cookie of the list was handed to
    [add_cookie], in order. *)
Fixpoint inject (cookies : list Cookie) (d : Driver) : Driver :=
  match cookies with
  | [] => d
  | c :: rest => inject rest (snd (wd_add_cookie c d))
  end.

(** The cookie file can be written and read back. *)
Definition storable (f : FileSystem) (p : string) : bool :=
  dir_searchable f &&
  match files f !! p with
  | Some file => writable file && readable file
  | None => dir_writable f
  end.

(** The bytes of the file at [p]. *)
Definition stored (f : FileSystem) (p : string) : option string :=
  content <$> files f !! p.

(** *** Counting the records of a batch *)

Definition count_errors (records : list Dict) : Z :=
  Z.of_nat (List.length (List.filter (dict_mem "error") records)).

Definition count_clean (records : list Dict) : Z :=
  Z.of_nat (List.length
              (List.filter (fun r => negb (dict_mem "error" r)) records)).

Definition record_url (r : Dict) : option PyValue := dict_get "url" r.

(** *** Correctness of a computation

    [post F m w Q E]: run from [w], [m] returns a value and a world that
    satisfy [Q], or raises an exception in a world that satisfy [E]; it
    may run out of fuel only if [F] holds.  With [False] for [F] this is
    total correctness. *)
Definition post {A} (F : Prop) (m : M A) (w : World)
  (Q : A -> World -> Prop) (E : Exception -> World -> Prop) : Prop :=
  match m w with
  | Return a w' => Q a w'
  | Raise e w' => E e w'
  | OutOfFuel => F
  end.

(** [m] returns from [w], with [Q]. *)
Definition returns {A} (m : M A) (w : World) (Q : A -> World -> Prop) : Prop :=
  post False m w Q (fun _ _ => False).

Definition driver_some (w : World) : Prop := driver (self w) <> None.

(** From [w] to [w'] the scraper keeps its driver, if it had one. *)
Definition keeps (w w' : World) : Prop := driver_some w -> driver_some w'.

(** *** The records [scrape_profile] builds *)

Definition experience_of (soup : Bs4.PageElement) : list Dict :=
  match Bs4.find soup "section"
          [("id", Bs4.MFun (class_has_or_false "experience"))] with
  | Some sec =>
      List.map experience_entry
        (take 5 (Bs4.find_all sec "li"
           [("class", Bs4.MFun (class_has_or_false "profile-section-card"))]))
  | None => []
  end.

Definition education_of (soup : Bs4.PageElement) : list Dict :=
  match Bs4.find soup "section"
          [("id", Bs4.MFun (class_has_or_false "education"))] with
  | Some sec =>
      List.map education_entry
        (take 3 (Bs4.find_all sec "li"
           [("class", Bs4.MFun (class_has_or_false "profile-section-card"))]))
  | None => []
  end.

Definition skills_of (soup : Bs4.PageElement) : list string :=
  match Bs4.find soup "section"
          [("id", Bs4.MFun (class_has_or_false "skills"))] with
  | Some sec =>
      fold_left add_skill
        (take 10 (Bs4.find_all sec "div"
           [("class", Bs4.MFun (class_has_or_false "mr1"))])) []
  | None => []
  end.

Definition profile_record (url : string) (soup : Bs4.PageElement) : Dict :=
  [("url", PyStr url);
   ("name", PyStr (field_rule "N/A" name_selectors soup));
   ("headline", PyStr (field_rule "N/A" headline_selectors soup));
   ("location", PyStr (field_rule "N/A" location_selectors soup));
   ("about", PyStr (field_rule "N/A" about_selectors soup));
   ("experience", PyList (PyDict <$> experience_of soup));
   ("education", PyList (PyDict <$> education_of soup));
   ("skills", PyList (PyStr <$> skills_of soup))].

Definition error_record (url : string) (e : Exception) : Dict :=
  [("url", PyStr url); ("error", PyStr (str e))].

(** Why [scrape_profile] can end in its handler: no driver, a page that
    does not load, or a page source that cannot be read. *)
Definition fetch_failure (w : World) (url : string) (e : Exception) : Prop :=
  ~ driver_some w \/
  (exists d, fst (wd_get url d) = inl e) \/
  (exists d, fst (wd_page_source d) = inl e).

(** What [scrape_profile] returns for [url] from [w]. *)
Definition scraped (w : World) (url : string) (r : Dict) : Prop :=
  (exists e, r = error_record url e /\ fetch_failure w url e) \/
  (exists src,
     (exists d, fst (wd_get url d) = inr tt) /\
     served src /\ r = profile_record url (BeautifulSoup src)).

(** *** The batch and its tally *)

(** [r] is what [scrape_profile] returns for [url] from some world that
    the run reaches from [w]. *)
Definition scraped_after (w : World) (url : string) (r : Dict) : Prop :=
  exists wi, keeps w wi /\ scraped wi url r.

(** The record stands for [url] and has one of the two shapes. *)
Definition attributed (url : string) (r : Dict) : Prop :=
  dict_get "url" r = Some (PyStr url) /\ record_shape "N/A" r.

(** What one turn of the batch loop does to its locals with the record
    it got. *)
Definition tally (st : BatchState) (r : Dict) : BatchState :=
  let '(all_profiles, successful, failed) := st in
  if dict_mem "error" r then (all_profiles ++ [r], successful, failed + 1)
  else (all_profiles ++ [r], successful + 1, failed).

(** The address loads in every state of the browser. *)
Definition always_loads (url : string) : Prop :=
  forall d, fst (wd_get url d) = inr tt.


(** The page source can always be read. *)
Definition source_readable : Prop :=
  forall d, exists src, fst (wd_page_source d) = inr src.

End Scraper.

Arguments Return {P A} a w.
Arguments Raise {P A} e w.
Arguments OutOfFuel {P A}.

Notation "x <- m ;; k" := (bind m (fun x => k))
  (at level 100, m at next level, right associativity).
Notation "m ;;; k" := (bind m (fun _ => k))
  (at level 100, right associativity).

(** ** A small concrete platform

    A browser over a fixed list of pages, a length-prefixed encoding of
    cookie lists and a parser that knows two documents.  The examples
    run on it. *)

Module Toy.

Record Page := mkPage {
  page_url : string;
  page_source : string
}.

Definition jane_html : string :=
  "<html><body><h1 class='text-heading-xlarge'> Jane Doe </h1></body></html>".

Definition bare_html : string := "<html><body></body></html>".

(** The pages that load; every other address times out. *)
Definition site : list Page :=
  [mkPage "https://www.linkedin.com" bare_html;
   mkPage "https://www.linkedin.com/in/jane-doe/" jane_html;
   mkPage "https://www.linkedin.com/in/john-roe/" bare_html].

Record Browser := mkBrowser {
  current : option Page;
  jar : list Cookie
}.

Definition lookup_page (url : string) : option Page :=
  List.find (fun p => String.eqb (page_url p) url) site.

Definition get (url : string) (b : Browser) : Res unit * Browser :=
  match lookup_page url with
  | Some p => (inr tt, mkBrowser (Some p) (jar b))
  | None => (inl (TimeoutException ("timeout loading " ++ url)), b)
  end.

(** Every document is 900 pixels high in a window of 1080. *)
Definition execute_script (script : string) (b : Browser)
  : Res JsValue * Browser :=
  if String.eqb script "return document.body.scrollHeight"
  then (inr (JsInt 900), b)
  else if String.eqb script "return window.innerHeight"
  then (inr (JsInt 1080), b)
  else (inr JsNone, b).

Definition get_page_source (b : Browser) : Res string * Browser :=
  match current b with
  | Some p => (inr (page_source p), b)
  | None => (inr bare_html, b)
  end.

Definition get_cookies (b : Browser) : Res (list Cookie) * Browser :=
  (inr (jar b), b).

(** A cookie is taken when its domain occurs in the address of the page
    shown. *)
Definition add_cookie (c : Cookie) (b : Browser) : Res unit * Browser :=
  match current b with
  | Some p =>
      if Py.contains (domain c) (page_url p)
      then (inr tt, mkBrowser (current b) (jar b ++ [c]))
      else (inl (WebDriverException "invalid cookie domain"), b)
  | None => (inl (WebDriverException "invalid cookie domain"), b)
  end.

Definition driver : WebDriver Browser :=
  Build_WebDriver Browser get execute_script get_page_source get_cookies
    add_cookie.

(** *** The encoding of cookie lists *)

Definition put_str (s : string) : string :=
  NilZero.string_of_uint (Nat.to_uint (String.length s)) ++ ":" ++ s.

Definition put_cookie (c : Cookie) : string :=
  put_str (name c) ++ put_str (value c) ++ put_str (domain c)
  ++ put_str (path c) ++
  match expiry c with
  | None => "N"
  | Some z => "E" ++ put_str (Py.str_of_Z z)
  end.

Definition dumps (l : list Cookie) : string :=
  "PK" ++ String.concat "" (put_cookie <$> l).

Definition take_str (s : string) : option (string * string) :=
  match String.index 0 ":" s with
  | Some i =>
      match NilZero.uint_of_string (String.substring 0 i s) with
      | Some u =>
          let n := Nat.of_uint u in
          let rest := String.substring (S i) (String.length s - S i) s in
          if (n <=? String.length rest)%nat
          then Some (String.substring 0 n rest,
                     String.substring n (String.length rest - n) rest)
          else None
      | None => None
      end
  | None => None
  end.

Definition take_expiry (s : string) : option (option Z * string) :=
  match s with
  | String "N" rest => Some (None, rest)
  | String "E" rest =>
      match take_str rest with
      | Some (digits, rest') =>
          match NilZero.int_of_string digits with
          | Some i => Some (Some (Z.of_int i), rest')
          | None => None
          end
      | None => None
      end
  | _ => None
  end.

Definition take_cookie (s : string) : option (Cookie * string) :=
  match take_str s with
  | Some (n, s1) =>
      match take_str s1 with
      | Some (v, s2) =>
          match take_str s2 with
          | Some (d, s3) =>
              match take_str s3 with
              | Some (p, s4) =>
                  match take_expiry s4 with
                  | Some (e, s5) => Some (mkCookie n v d p e, s5)
                  | None => None
                  end
              | None => None
              end
          | None => None
          end
      | None => None
      end
  | None => None
  end.

Fixpoint take_cookies (fuel : nat) (s : string) : option (list Cookie) :=
  match s with
  | EmptyString => Some []
  | _ =>
      match fuel with
      | O => None
      | S fuel' =>
          match take_cookie s with
          | Some (c, rest) => cons c <$> take_cookies fuel' rest
          | None => None
          end
      end
  end.

Definition loads (s : string) : option (list Cookie) :=
  match s with
  | String "P" (String "K" body) => take_cookies (String.length body) body
  | _ => None
  end.

Definition pickle : Pickle := Build_Pickle dumps loads.

(** *** The two documents the parser knows *)

(** [jane_html] as lxml builds it. *)
Definition jane_soup : Bs4.PageElement :=
  Bs4.Tag "[document]" []
    [Bs4.Tag "html" []
       [Bs4.Tag "body" []
          [Bs4.Tag "h1" [("class", Bs4.Multi ["text-heading-xlarge"])]
             [Bs4.NavigableString " Jane Doe "]]]].

Definition bare_soup : Bs4.PageElement :=
  Bs4.Tag "[document]" [] [Bs4.Tag "html" [] [Bs4.Tag "body" [] []]].

Definition parse (markup : string) : Bs4.PageElement :=
  if String.eqb markup jane_html then jane_soup else bare_soup.

Definition parser : HtmlParser := Build_HtmlParser parse.

Definition platform : Platform :=
  Build_Platform Browser driver pickle parser.

(** *** Worlds to run in *)

Definition draws (n : nat) : Z := 37 * Z.of_nat n.

Definition scraper (b : Browser) : LinkedInScraper (P := platform) :=
  mkScraper (P := platform) "user@example.com" "secret" false None (Some b)
    "linkedin_cookies.pkl".

(** A fresh browser and an empty, writable directory. *)
Definition world0 : World (P := platform) :=
  mkWorld (scraper (mkBrowser None [])) (mkFS ∅ true true) draws 0 0 [].

Definition cookies0 : list Cookie :=
  [mkCookie "li_at" "AQEDAT" ".linkedin.com" "/" (Some 1790000000);
   mkCookie "JSESSIONID" "ajax:0451" "www.linkedin.com" "/" None].

(** A browser that is logged in and holds [cookies0]. *)
Definition world1 : World (P := platform) :=
  mkWorld
    (scraper (mkBrowser (Some (mkPage "https://www.linkedin.com" bare_html))
                cookies0))
    (mkFS ∅ true true) draws 0 0 [].

(** A cookie file that is no pickle and cannot be written. *)
Definition world2 : World (P := platform) :=
  mkWorld (scraper (mkBrowser None []))
    (mkFS {[ "linkedin_cookies.pkl" := mkFile "not a pickle" true false ]}
       true true)
    draws 0 0 [].

(** A scraper on which [login] never ran: no driver yet. *)
Definition world_cold : World (P := platform) :=
  mkWorld
    (mkScraper (P := platform) "user@example.com" "secret" false None None
       "linkedin_cookies.pkl")
    (mkFS ∅ true true) draws 0 0 [].

(** No driver, and a cookie file saved by an earlier run. *)
(** A saved session in a directory the process may not search. *)
Definition world_locked : World (P := platform) :=
  mkWorld (scraper (mkBrowser None []))
    (mkFS {[ "linkedin_cookies.pkl" := mkFile (dumps cookies0) true true ]}
       true false)
    draws 0 0 [].

Definition world_stale : World (P := platform) :=
  mkWorld
    (mkScraper (P := platform) "user@example.com" "secret" false None None
       "linkedin_cookies.pkl")
    (mkFS {[ "linkedin_cookies.pkl" := mkFile (dumps cookies0) true true ]}
       true true)
    draws 0 0 [].

(** Two records as [scrape_profile] builds them. *)
Definition records0 : list Dict :=
  [[("url", PyStr "https://www.linkedin.com/in/jane-doe/");
    ("name", PyStr "Jane Doe"); ("headline", PyStr "N/A");
    ("location", PyStr "N/A"); ("about", PyStr "Builds things, ships them");
    ("experience", PyList []); ("education", PyList []);
    ("skills", PyList [])];
   [("url", PyStr "https://www.linkedin.com/in/nobody/");
    ("error", PyStr "timeout loading https://www.linkedin.com/in/nobody/")]].

Definition jane_url : string := "https://www.linkedin.com/in/jane-doe/".
Definition nobody_url : string := "https://www.linkedin.com/in/nobody/".
Definition john_url : string := "https://www.linkedin.com/in/john-roe/".

Definition batch0 : list string :=
  [jane_url; nobody_url; john_url].

End Toy.

(** ** Further definitions for the properties of the whole script *)

Section MoreDefinitions.

Context `{P : Platform}.

(** The record of a URL scraped while [self.driver] is still [None]. *)
Definition no_driver_record (url : string) : Dict :=
  [("url", PyStr url);
   ("error", PyStr "'NoneType' object has no attribute 'get'")].

(** Every script the browser is asked to run raises. *)
Definition scripts_fail : Prop :=
  forall script d, exists e, fst (wd_execute_script script d) = inl e.

(** What an entry holds for a node looked up in its item: the text of
    the node without the blanks around it, ['N/A'] when there is no
    node. *)
Definition node_text (node : option Bs4.PageElement) (v : string) : Prop :=
  match node with
  | Some el => v = Py.strip (Bs4.get_text el)
  | None => v = "N/A"
  end.

(** The items a list extractor reads: the first [cap] nodes [tag] whose
    class holds [cls], inside the first section whose id holds [sec_id];
    none when there is no such section. *)
Definition list_items (soup : Bs4.PageElement) (sec_id tag cls : string)
  (cap : nat) : list Bs4.PageElement :=
  match Bs4.find soup "section"
          [("id", Bs4.MFun (class_has_or_false sec_id))] with
  | Some sec =>
      take cap (Bs4.find_all sec tag
                  [("class", Bs4.MFun (class_has_or_false cls))])
  | None => []
  end.

(** The entry of the experience or education list built from [item]: two
    keys, the first with the text of the item's first [div] of class
    [mr1], the second with that of its first [span] of class [t-14]. *)
Definition entry_shape (k1 k2 : string) (item : Bs4.PageElement)
  (entry : Dict) : Prop :=
  exists v1 v2,
    entry = [(k1, PyStr v1); (k2, PyStr v2)] /\
    node_text (Bs4.find item "div"
                 [("class", Bs4.MFun (class_has_or_false "mr1"))]) v1 /\
    node_text (Bs4.find item "span"
                 [("class", Bs4.MFun (class_has_or_false "t-14"))]) v2 /\
    trimmed v1 /\ trimmed v2.

(** The texts of the items that are not blank, in the order of the
    items. *)
Definition skill_texts (items : list Bs4.PageElement) : list string :=
  List.filter (fun s => negb (String.eqb s ""))
    (List.map (fun item => Py.strip (Bs4.get_text item)) items).

End MoreDefinitions.

(** ** Further definitions: invariants of the file system *)

Section FileInvariants.

Context `{P : Platform}.

(** [m] leaves the file system as it found it, however it ends. *)
Definition fs_kept {A} (m : M A) : Prop :=
  forall w,
    match m w with
    | Return _ w' | Raise _ w' => fs w' = fs w
    | OutOfFuel => True
    end.

(** [m] changes at most the file at [out]. *)
Definition only_writes {A} (out : string) (m : M A) : Prop :=
  forall w,
    match m w with
    | Return _ w' | Raise _ w' =>
        dir_writable (fs w') = dir_writable (fs w) /\
        forall p, p <> out -> files (fs w') !! p = files (fs w) !! p
    | OutOfFuel => True
    end.

End FileInvariants.

(** Snapshots for the examples of the name extractor. *)
Module Samples.

(** The first heading matches the first selector and is blank; the second
    matches the fallback selector. *)
Definition blank_name_soup : Bs4.PageElement :=
  Bs4.Tag "[document]" []
    [Bs4.Tag "html" []
       [Bs4.Tag "body" []
          [Bs4.Tag "h1" [("class", Bs4.Multi ["text-heading-xlarge"])]
             [Bs4.NavigableString "   "];
           Bs4.Tag "h1" [("class", Bs4.Multi ["pv-text-details__left-panel"])]
             [Bs4.NavigableString "Jane Doe"]]]].

(** Only the fallback selector matches. *)
Definition fallback_name_soup : Bs4.PageElement :=
  Bs4.Tag "[document]" []
    [Bs4.Tag "html" []
       [Bs4.Tag "body" []
          [Bs4.Tag "h1" [("class", Bs4.Multi ["pv-text-details__left-panel"])]
             [Bs4.NavigableString "Jane Doe"]]]].

(** Two positions, the second without a company node, and three skills,
    the second blank. *)
Definition career_soup : Bs4.PageElement :=
  Bs4.Tag "[document]" []
    [Bs4.Tag "html" []
       [Bs4.Tag "body" []
          [Bs4.Tag "section" [("id", Bs4.Single "experience-section")]
             [Bs4.Tag "li" [("class", Bs4.Multi ["profile-section-card"])]
                [Bs4.Tag "div" [("class", Bs4.Multi ["mr1"; "t-bold"])]
                   [Bs4.NavigableString " Engineer "];
                 Bs4.Tag "span" [("class", Bs4.Multi ["t-14"])]
                   [Bs4.NavigableString "Acme"]];
              Bs4.Tag "li" [("class", Bs4.Multi ["profile-section-card"])]
                [Bs4.Tag "div" [("class", Bs4.Multi ["mr1"])]
                   [Bs4.NavigableString "Intern"]]];
           Bs4.Tag "section" [("id", Bs4.Single "skills")]
             [Bs4.Tag "div" [("class", Bs4.Multi ["mr1"])]
                [Bs4.NavigableString "Rocq"];
              Bs4.Tag "div" [("class", Bs4.Multi ["mr1"])]
                [Bs4.NavigableString "  "];
              Bs4.Tag "div" [("class", Bs4.Multi ["mr1"])]
                [Bs4.NavigableString " Python"]]]]].

End Samples.

(** ** Further definitions: the table and the session file *)

Section TableDefinitions.

Context `{P : Platform}.

(** The first line of the table. *)
Definition table_header : string :=
  csv_row ["url"; "name"; "headline"; "location"; "about"].

(** [profile.get('about', '')[:500] if profile.get('about') else ''] *)
Definition about_cell (profile : Dict) : string :=
  if Py.truthy (Some (get_str "about" profile))
  then String.substring 0 500 (get_str "about" profile)
  else "".

(** The line [_save_to_csv] writes for one profile. *)
Definition table_row (profile : Dict) : string :=
  csv_row [get_str "url" profile;
           get_str "name" profile;
           get_str "headline" profile;
           get_str "location" profile;
           about_cell profile].

(** The key [k] of the record is missing or holds a string. *)
Definition has_text (k : string) (profile : Dict) : bool :=
  match dict_get k profile with
  | None | Some (PyStr _) => true
  | Some _ => false
  end.

(** The records [_save_to_csv] is meant for: each key of the table is
    missing or holds a string, as in every record [scrape_profile]
    builds.  (For another value [csv] would write its [str], and the
    slice of [about] could raise.) *)
Definition table_ready (profile : Dict) : bool :=
  forallb (fun k => has_text k profile)
    ["url"; "name"; "headline"; "location"; "about"].

(** [open(p, 'w')] would succeed. *)
Definition creatable (f : FileSystem) (p : string) : bool :=
  dir_searchable f &&
  match files f !! p with
  | Some file => writable file
  | None => dir_writable f
  end.

(** What makes [load_cookies] return [True]: the directory can be
    searched, the cookie file is there and readable, the browser reaches
    the site, and the file unpickles. *)
Definition loadable (w : World) : Prop :=
  exists f d cs,
    dir_searchable (fs w) = true /\
    files (fs w) !! cookies_file (self w) = Some f /\
    readable f = true /\
    driver (self w) = Some d /\
    fst (wd_get "https://www.linkedin.com" d) = inr tt /\
    pickle_loads (content f) = Some cs.

(** [save_cookies] cannot get the cookies: no driver, or the browser
    refuses. *)
Definition cookies_unavailable (w : World) : Prop :=
  driver (self w) = None \/
  exists d e, driver (self w) = Some d /\ fst (wd_get_cookies d) = inl e.

End TableDefinitions.

(** ** Further definitions: scrolling, pacing and the user agent *)

Section ScrollDefinitions.

Context `{P : Platform}.

(** The script of one scroll step. *)
Definition scroll_script (pos : Z) : string :=
  "window.scrollTo(0, " ++ Py.str_of_Z pos ++ ");".

Definition height_script : string := "return document.body.scrollHeight".

(** A page that grows as it is scrolled.  [Inv d pos] relates the state
    of the browser to the position reached; from such a state a scroll to
    any position up to 400 further succeeds, and the height measured
    next is beyond that position. *)
Definition endless_feed (Inv : Driver -> Z -> Prop) : Prop :=
  forall d pos pos',
    Inv d pos -> pos' <= pos + 400 ->
    exists v d1 z d2,
      wd_execute_script (scroll_script pos') d = (inr v, d1) /\
      wd_execute_script height_script d1 = (inr (JsInt z), d2) /\
      pos' < z /\ Inv d2 pos'.

(** [m] never runs out of fuel. *)
Definition fueled {A} (m : M A) : Prop := forall w, m w <> OutOfFuel.

(** The world once the banner of profile [i] of [total] is printed. *)
Definition announced (total i : Z) (w : World) : World :=
  mkWorld (self w) (fs w) (rng w) (rng_pos w) (clock w)
    ([Lit (Py.repeat_str "=" 70)]
     :: [Lit ("Processing profile " ++ Py.str_of_Z i ++ "/" ++
              Py.str_of_Z total)]
     :: [Lit (newline ++ Py.repeat_str "=" 70)]
     :: stdout w).

(** The world after a wait of [delay] seconds between two profiles: one
    draw taken, one line printed, the clock moved on. *)
Definition waited (delay : Q) (w : World) : World :=
  mkWorld (self w) (fs w) (rng w) (S (rng_pos w)) (clock w + delay)%Q
    ([Lit "→ Waiting "; Fixed1 delay; Lit " seconds before next profile..."]
     :: stdout w).

(** *** The user agent *)

Definition user_agents : list string :=
  ["Mozilla/5.0 (Windows NT 10.0; Win64; x64) AppleWebKit/537.36 (KHTML, like Gecko) Chrome/120.0.0.0 Safari/537.36";
   "Mozilla/5.0 (Windows NT 10.0; Win64; x64) AppleWebKit/537.36 (KHTML, like Gecko) Chrome/119.0.0.0 Safari/537.36";
   "Mozilla/5.0 (Macintosh; Intel Mac OS X 10_15_7) AppleWebKit/537.36 (KHTML, like Gecko) Chrome/120.0.0.0 Safari/537.36";
   "Mozilla/5.0 (X11; Linux x86_64) AppleWebKit/537.36 (KHTML, like Gecko) Chrome/120.0.0.0 Safari/537.36";
   "Mozilla/5.0 (Windows NT 10.0; Win64; x64; rv:121.0) Gecko/20100101 Firefox/121.0";
   "Mozilla/5.0 (Macintosh; Intel Mac OS X 10_15_7) AppleWebKit/605.1.15 (KHTML, like Gecko) Version/17.1 Safari/605.1.15"].

(** [random.choice(seq)]: the element at a drawn index below
    [len(seq)]; the sequence here is never empty, [default] stands for
    the element no index reaches. *)
Definition random_choice {A} (default : A) (seq : list A) : M A :=
  r <- next_draw ;;
  ret (nth (Z.to_nat (r mod Z.of_nat (List.length seq))) seq default).

Definition _get_random_user_agent : M string :=
  random_choice "" user_agents.

End ScrollDefinitions.

(** A browser showing an endless feed: its state counts the scroll steps
    made, and the page is always a bit higher than any position those
    steps can have reached. *)
Module Feed.

Definition get (url : string) (k : nat) : Res unit * nat := (inr tt, k).

Definition execute_script (script : string) (k : nat) : Res JsValue * nat :=
  if String.eqb script "return document.body.scrollHeight"
  then (inr (JsInt (400 * Z.of_nat (S k) + 1)), k)
  else if String.eqb script "return window.innerHeight"
  then (inr (JsInt 1080), k)
  else (inr JsNone, S k).

Definition get_page_source (k : nat) : Res string * nat :=
  (inr Toy.bare_html, k).

Definition get_cookies (k : nat) : Res (list Cookie) * nat := (inr [], k).

Definition add_cookie (c : Cookie) (k : nat) : Res unit * nat := (inr tt, k).

Definition driver : WebDriver nat :=
  Build_WebDriver nat get execute_script get_page_source get_cookies
    add_cookie.

Definition platform : Platform :=
  Build_Platform nat driver Toy.pickle Toy.parser.

(** After [k] steps the position is at most [400 * k]. *)
Definition reached (k : nat) (pos : Z) : Prop := pos <= 400 * Z.of_nat k.

Definition world0 : World (P := platform) :=
  mkWorld
    (mkScraper (P := platform) "user@example.com" "secret" false None
       (Some 0%nat) "linkedin_cookies.pkl")
    (mkFS ∅ true true) Toy.draws 0 0 [].

End Feed.

(** A browser in which no script runs. *)
Module NoScript.

Definition get (url : string) (u : unit) : Res unit * unit := (inr tt, u).

Definition execute_script (script : string) (u : unit) : Res JsValue * unit :=
  (inl (WebDriverException "javascript error: scripts are disabled"), u).

Definition get_page_source (u : unit) : Res string * unit :=
  (inr Toy.jane_html, u).

Definition get_cookies (u : unit) : Res (list Cookie) * unit := (inr [], u).

Definition add_cookie (c : Cookie) (u : unit) : Res unit * unit := (inr tt, u).

Definition driver : WebDriver unit :=
  Build_WebDriver unit get execute_script get_page_source get_cookies
    add_cookie.

Definition platform : Platform :=
  Build_Platform unit driver Toy.pickle Toy.parser.

Definition world0 : World (P := platform) :=
  mkWorld
    (mkScraper (P := platform) "user@example.com" "secret" false None
       (Some tt) "linkedin_cookies.pkl")
    (mkFS ∅ true true) Toy.draws 0 0 [].

End NoScript.

(** * Properties *)

Section Properties.

Context `{P : Platform}.

Lemma pure_ret {A} (v : A) : pure_comp (ret v) v.
Proof. intros w; reflexivity. Qed.

Lemma pure_bind {A B} (m : M A) (k : A -> M B) a b :
  pure_comp m a -> pure_comp (k a) b -> pure_comp (bind m k) b.
Proof. intros Hm Hk w. unfold bind. rewrite Hm. apply Hk. Qed.

Lemma pure_try {A} (m : M A) (h : Exception -> M A) a :
  pure_comp m a -> pure_comp (try_except m h) a.
Proof. intros Hm w. unfold try_except. rewrite Hm. reflexivity. Qed.

Lemma pure_for_each {A S} (body : A -> S -> M S) (f : S -> A -> S) :
  (forall x acc, pure_comp (body x acc) (f acc x)) ->
  forall l acc, pure_comp (for_each l body acc) (fold_left f l acc).
Proof.
  intros Hbody l; induction l as [|x l IH]; intros acc; simpl.
  - apply pure_ret.
  - eapply pure_bind; [apply Hbody | apply IH].
Qed.

Lemma pure_unique {A} (m : M A) (a b : A) (w : World) :
  pure_comp m a -> pure_comp m b -> a = b.
Proof. intros Ha Hb. specialize (Ha w). rewrite Hb in Ha. congruence. Qed.

Lemma pure_twice {A} (m : M A) v : pure_comp m v -> pure_comp (twice m) (v, v).
Proof.
  intros H. unfold twice.
  eapply pure_bind; [exact H|]. eapply pure_bind; [exact H|]. apply pure_ret.
Qed.

Lemma _extract_name_rule soup :
  pure_comp (_extract_name soup) (field_rule "N/A" name_selectors soup).
Proof.
  unfold _extract_name, field_rule, name_selectors; simpl.
  destruct (Bs4.find soup "h1" [("class", Bs4.MFun _)]) as [el|];
    [|destruct (Bs4.find soup "h1" [("class", Bs4.MStr _)]) as [el|]];
    intros w; reflexivity.
Qed.

Lemma _extract_headline_rule soup :
  pure_comp (_extract_headline soup) (field_rule "N/A" headline_selectors soup).
Proof.
  unfold _extract_headline, field_rule, headline_selectors; simpl.
  destruct (Bs4.find soup "div" _) as [el|]; intros w; reflexivity.
Qed.

Lemma _extract_location_rule soup :
  pure_comp (_extract_location soup) (field_rule "N/A" location_selectors soup).
Proof.
  unfold _extract_location, field_rule, location_selectors; simpl.
  destruct (Bs4.find soup "span" _) as [el|]; intros w; reflexivity.
Qed.

Lemma _extract_about_rule soup :
  pure_comp (_extract_about soup) (field_rule "N/A" about_selectors soup).
Proof.
  unfold _extract_about, field_rule, about_selectors; simpl.
  destruct (Bs4.find soup "div" _) as [sec|]; simpl;
    [destruct (Bs4.find sec "div" _) as [el|]|]; intros w; reflexivity.
Qed.

Lemma fold_left_snoc {A B} (g : A -> B) (l : list A) (acc : list B) :
  fold_left (fun acc x => acc ++ [g x]) l acc = acc ++ List.map g l.
Proof.
  revert acc; induction l as [|x l IH]; intros acc; simpl.
  - now rewrite app_nil_r.
  - rewrite IH, <- app_assoc. reflexivity.
Qed.

Lemma fold_left_grows {A B} (f : list B -> A -> list B) :
  (forall acc x, (List.length (f acc x) <= S (List.length acc))%nat) ->
  forall l acc,
    (List.length (fold_left f l acc) <= List.length acc + List.length l)%nat.
Proof.
  intros Hf l; induction l as [|x l IH]; intros acc; simpl; [lia|].
  specialize (IH (f acc x)). specialize (Hf acc x). lia.
Qed.

(** The value of [_extract_experience]: one entry per card among the first
    five of the experience section, in document order. *)
Lemma _extract_experience_value soup :
  pure_comp (_extract_experience soup)
    match Bs4.find soup "section"
            [("id", Bs4.MFun (class_has_or_false "experience"))] with
    | Some sec =>
        List.map experience_entry
          (take 5 (Bs4.find_all sec "li"
             [("class", Bs4.MFun (class_has_or_false "profile-section-card"))]))
    | None => []
    end.
Proof.
  unfold _extract_experience. apply pure_try.
  destruct (Bs4.find soup "section" _) as [sec|]; [|apply pure_ret].
  set (items := take 5 _).
  rewrite <- (app_nil_l (List.map experience_entry items)).
  rewrite <- fold_left_snoc.
  apply pure_for_each. intros item acc. apply pure_try, pure_ret.
Qed.

Lemma _extract_education_value soup :
  pure_comp (_extract_education soup)
    match Bs4.find soup "section"
            [("id", Bs4.MFun (class_has_or_false "education"))] with
    | Some sec =>
        List.map education_entry
          (take 3 (Bs4.find_all sec "li"
             [("class", Bs4.MFun (class_has_or_false "profile-section-card"))]))
    | None => []
    end.
Proof.
  unfold _extract_education. apply pure_try.
  destruct (Bs4.find soup "section" _) as [sec|]; [|apply pure_ret].
  set (items := take 3 _).
  rewrite <- (app_nil_l (List.map education_entry items)).
  rewrite <- fold_left_snoc.
  apply pure_for_each. intros item acc. apply pure_try, pure_ret.
Qed.

Lemma _extract_skills_value soup :
  pure_comp (_extract_skills soup)
    match Bs4.find soup "section"
            [("id", Bs4.MFun (class_has_or_false "skills"))] with
    | Some sec =>
        fold_left add_skill
          (take 10 (Bs4.find_all sec "div"
             [("class", Bs4.MFun (class_has_or_false "mr1"))])) []
    | None => []
    end.
Proof.
  unfold _extract_skills. apply pure_try.
  destruct (Bs4.find soup "section" _) as [sec|]; [|apply pure_ret].
  apply pure_for_each. intros item acc. unfold add_skill.
  destruct (Py.truthy _); apply pure_ret.
Qed.

Lemma add_skill_grows acc x :
  (List.length (add_skill acc x) <= S (List.length acc))%nat.
Proof.
  unfold add_skill. destruct (Py.truthy _); [|lia].
  rewrite length_app. simpl. lia.
Qed.

(** C4. Whatever the page holds, [_extract_experience] returns at most 5
    entries, [_extract_education] at most 3 and [_extract_skills] at most
    10; each of them returns from every world and leaves it unchanged. *)
Theorem list_field_caps (soup : Bs4.PageElement) (w : World) :
  exists experience education skills,
    _extract_experience soup w = Return experience w /\
    _extract_education soup w = Return education w /\
    _extract_skills soup w = Return skills w /\
    (List.length experience <= 5)%nat /\
    (List.length education <= 3)%nat /\
    (List.length skills <= 10)%nat.
Proof.
  eexists _, _, _.
  split; [apply _extract_experience_value|].
  split; [apply _extract_education_value|].
  split; [apply _extract_skills_value|].
  repeat split.
  - destruct (Bs4.find soup "section" _); simpl; [|lia].
    rewrite length_map, length_take. lia.
  - destruct (Bs4.find soup "section" _); simpl; [|lia].
    rewrite length_map, length_take. lia.
  - destruct (Bs4.find soup "section" _); simpl; [|lia].
    etransitivity; [apply fold_left_grows, add_skill_grows|].
    rewrite length_take. change (List.length (@nil string)) with 0%nat. lia.
Qed.

(** *** Determinism of the extractors *)

Lemma pure_deterministic {A} (m : M A) v : pure_comp m v -> deterministic m.
Proof.
  intros H. exists v. intros w. split; [apply H | apply pure_twice, H].
Qed.

(** C6. Each field extractor returns a value fixed by the DOM snapshot
    alone, from whatever world it is run in, and leaves that world as it
    was; run twice in a row on the same snapshot it returns the same value
    twice. *)
Theorem field_extractors_deterministic (soup : Bs4.PageElement) :
  deterministic (_extract_name soup) /\
  deterministic (_extract_headline soup) /\
  deterministic (_extract_location soup) /\
  deterministic (_extract_about soup) /\
  deterministic (_extract_experience soup) /\
  deterministic (_extract_education soup) /\
  deterministic (_extract_skills soup).
Proof.
  repeat split; eapply pure_deterministic.
  - apply _extract_name_rule.
  - apply _extract_headline_rule.
  - apply _extract_location_rule.
  - apply _extract_about_rule.
  - apply _extract_experience_value.
  - apply _extract_education_value.
  - apply _extract_skills_value.
Qed.

(** *** Trimming *)

Lemma lstrip_first s : space_at (first_char (Py.lstrip s)) = false.
Proof.
  induction s as [|c s IH]; simpl; [reflexivity|].
  destruct (Py.isspace c) eqn:E; [exact IH | simpl; exact E].
Qed.

Lemma rstrip_first s :
  space_at (first_char s) = false -> space_at (first_char (Py.rstrip s)) = false.
Proof.
  destruct s as [|c s]; simpl; [reflexivity|]. intros E.
  destruct (Py.rstrip s); [rewrite E|]; simpl; auto.
Qed.

Lemma rstrip_last s : space_at (last_char (Py.rstrip s)) = false.
Proof.
  induction s as [|c s IH]; simpl; [reflexivity|].
  destruct (Py.rstrip s) as [|c' r] eqn:E.
  - destruct (Py.isspace c) eqn:Ec; simpl; auto.
  - exact IH.
Qed.

Lemma strip_trimmed s : trimmed (Py.strip s).
Proof.
  split; [apply rstrip_first, lstrip_first | apply rstrip_last].
Qed.

Lemma field_rule_trimmed sentinel sels soup :
  trimmed sentinel -> trimmed (field_rule sentinel sels soup).
Proof.
  intros Hs. unfold field_rule.
  destruct (first_match sels soup); [apply strip_trimmed | exact Hs].
Qed.

(** *** [find] picks the first match in document order *)

Lemma head_filter_first {A} (f : A -> bool) (l : list A) (x : A) :
  head (List.filter f l) = Some x ->
  exists pre post,
    l = pre ++ x :: post /\ f x = true /\
    Forall (fun y => f y = false) pre.
Proof.
  induction l as [|y l IH]; simpl; [discriminate|].
  destruct (f y) eqn:E; simpl.
  - intros [= ->]. exists [], l. repeat split; auto.
  - intros H. destruct (IH H) as (pre & post & -> & Hx & Hpre).
    exists (y :: pre), post. repeat split; auto.
Qed.

Lemma head_filter_none {A} (f : A -> bool) (l : list A) :
  head (List.filter f l) = None -> Forall (fun y => f y = false) l.
Proof.
  induction l as [|y l IH]; simpl; [constructor|].
  destruct (f y) eqn:E; simpl; [discriminate|]. auto.
Qed.

Lemma find_first e n a el :
  Bs4.find e n a = Some el ->
  exists pre post,
    Bs4.descendants e = pre ++ el :: post /\
    Bs4.search_tag n a el = true /\
    Forall (fun y => Bs4.search_tag n a y = false) pre.
Proof. apply head_filter_first. Qed.

Lemma find_none e n a :
  Bs4.find e n a = None ->
  Forall (fun y => Bs4.search_tag n a y = false) (Bs4.descendants e).
Proof. apply head_filter_none. Qed.

(** C5, amended. Each core-field extractor returns the trimmed text of the
    node its first matching selector picks ([find] picks the first match
    in document order) and the sentinel ["N/A"] when no selector matches;
    a snapshot with a name node reading "Jane Doe" and no headline node
    gives name "Jane Doe" and headline "N/A". *)
Theorem core_field_rule (soup : Bs4.PageElement) (w : World) :
  _extract_name soup w = Return (field_rule "N/A" name_selectors soup) w /\
  _extract_headline soup w
  = Return (field_rule "N/A" headline_selectors soup) w /\
  _extract_location soup w
  = Return (field_rule "N/A" location_selectors soup) w /\
  _extract_about soup w = Return (field_rule "N/A" about_selectors soup) w /\
  (forall sels, trimmed (field_rule "N/A" sels soup)) /\
  (forall e n a el,
     Bs4.find e n a = Some el ->
     exists pre post,
       Bs4.descendants e = pre ++ el :: post /\
       Bs4.search_tag n a el = true /\
       Forall (fun y => Bs4.search_tag n a y = false) pre) /\
  _extract_name Toy.jane_soup w = Return "Jane Doe" w /\
  _extract_headline Toy.jane_soup w = Return "N/A" w.
Proof.
  split; [apply _extract_name_rule|].
  split; [apply _extract_headline_rule|].
  split; [apply _extract_location_rule|].
  split; [apply _extract_about_rule|].
  split; [intros sels; apply field_rule_trimmed; split; reflexivity|].
  split; [apply find_first|].
  split.
  - rewrite _extract_name_rule. reflexivity.
  - rewrite _extract_headline_rule. reflexivity.
Qed.

(** *** Rules for [post] *)

Lemma post_ret {A} F (a : A) w Q E : Q a w -> post F (ret a) w Q E.
Proof. intros H; exact H. Qed.

Lemma post_raise {A} F e w (Q : A -> World -> Prop)
  (E : Exception -> World -> Prop) :
  E e w -> post F (raise e) w Q E.
Proof. intros H; exact H. Qed.

Lemma post_bind {A B} F (m : M A) (k : A -> M B) w Q E :
  post F m w (fun a w' => post F (k a) w' Q E) E -> post F (bind m k) w Q E.
Proof.
  unfold post, bind. destruct (m w) as [a w'|e w'|]; auto.
Qed.

Lemma post_try {A} F (m : M A) (h : Exception -> M A) w Q E :
  post F m w Q (fun e w' => post F (h e) w' Q E) ->
  post F (try_except m h) w Q E.
Proof.
  unfold post, try_except. destruct (m w) as [a w'|e w'|]; auto.
Qed.

Lemma post_weaken {A} F (m : M A) w (Q Q' : A -> World -> Prop)
  (E E' : Exception -> World -> Prop) :
  post F m w Q E ->
  (forall a w', Q a w' -> Q' a w') ->
  (forall e w', E e w' -> E' e w') ->
  post F m w Q' E'.
Proof.
  unfold post. destruct (m w) as [a w'|e w'|]; auto.
Qed.

Lemma post_total {A} (F : Prop) (m : M A) w Q E :
  post False m w Q E -> post F m w Q E.
Proof. unfold post. destruct (m w); auto. intros []. Qed.

Lemma post_pure {A} F (m : M A) v w (Q : A -> World -> Prop) E :
  pure_comp m v -> Q v w -> post F m w Q E.
Proof. intros Hm HQ. unfold post. rewrite Hm. exact HQ. Qed.

Lemma returns_elim {A} (m : M A) w Q :
  returns m w Q -> exists a w', m w = Return a w' /\ Q a w'.
Proof.
  unfold returns, post. destruct (m w) as [a w'|e w'|]; [eauto| |]; intros [].
Qed.

Lemma returns_intro {A} (m : M A) w a w' (Q : A -> World -> Prop) :
  m w = Return a w' -> Q a w' -> returns m w Q.
Proof. intros Hm HQ. unfold returns, post. rewrite Hm. exact HQ. Qed.

Lemma keeps_refl w : keeps w w.
Proof. intros H; exact H. Qed.

Lemma keeps_trans w1 w2 w3 : keeps w1 w2 -> keeps w2 w3 -> keeps w1 w3.
Proof. unfold keeps; auto. Qed.

Lemma keeps_same_self w w' : self w' = self w -> keeps w w'.
Proof. unfold keeps, driver_some. intros ->. auto. Qed.

(** *** The primitives *)

Lemma print_post line w :
  returns (print line) w (fun _ w' => self w' = self w /\ fs w' = fs w).
Proof. split; reflexivity. Qed.

Lemma random_randint_post a b w :
  a <= b ->
  returns (random_randint a b) w
    (fun z w' => a <= z <= b /\ self w' = self w /\ fs w' = fs w).
Proof.
  intros Hab. unfold returns, post, random_randint, bind, next_draw, ret.
  simpl. split; [|split; reflexivity].
  pose proof (Z.mod_pos_bound (rng w (rng_pos w)) (b - a + 1)). lia.
Qed.

Lemma _random_sleep_post lo hi w :
  returns (_random_sleep lo hi) w (fun _ w' => self w' = self w /\ fs w' = fs w).
Proof. split; reflexivity. Qed.

Lemma driver_call_post {A} F attr (op : Driver -> Res A * Driver) w :
  post F (driver_call attr op) w
    (fun a w' => exists d, driver (self w) = Some d /\ fst (op d) = inr a /\
                 w' = set_driver (Some (snd (op d))) w)
    (fun e w' => keeps w w' /\
                 (~ driver_some w \/ exists d, fst (op d) = inl e)).
Proof.
  unfold post, driver_call. destruct (driver (self w)) as [d|] eqn:Hd.
  - destruct (op d) as [[e|a] d'] eqn:Hop; simpl.
    + split.
      * intros _. unfold driver_some. simpl. discriminate.
      * right. exists d. rewrite Hop. reflexivity.
    + exists d. rewrite Hop. auto.
  - split; [apply keeps_refl|]. left. unfold driver_some. rewrite Hd. auto.
Qed.

Lemma keeps_set_driver d w : keeps w (set_driver (Some d) w).
Proof. intros _. unfold driver_some. simpl. discriminate. Qed.

(** *** The scroll loop ends *)

Lemma measure_ok H d th :
  heights_bounded H ->
  fst (wd_execute_script "return document.body.scrollHeight" d) = inr th ->
  height_ok H th.
Proof.
  intros Hb Hm. specialize (Hb d). rewrite Hm in Hb.
  destruct th; simpl; auto.
Qed.

Lemma heights_fixed_bounded H : heights_fixed H -> heights_bounded H.
Proof. intros Hf d. rewrite Hf. lia. Qed.

(** Either running out of fuel is allowed, or the height is bounded and
    the fuel covers what is left to scroll. *)
Lemma scroll_loop_post (F : Prop) H fuel :
  forall pos th w,
    F \/ (heights_bounded H /\ height_ok H th /\ (1 <= fuel)%nat /\
          H <= pos + 200 * Z.of_nat fuel - 200) ->
    post F (scroll_loop fuel pos th) w
      (fun _ w' => keeps w w') (fun _ w' => keeps w w').
Proof.
  induction fuel as [|fuel IH]; intros pos th w Hpre.
  { destruct Hpre as [HF|(_ & _ & Hf & _)]; [exact HF|lia]. }
  cbn [scroll_loop]. apply post_bind.
  destruct th as [|z]; [apply post_raise, keeps_refl|].
  apply post_ret. destruct (pos <? z) eqn:Hlt; [|apply post_ret, keeps_refl].
  apply Z.ltb_lt in Hlt.
  apply post_bind.
  eapply post_weaken;
    [apply post_total, (random_randint_post 200 400); lia| |intros ? ? []].
  intros step w1 (Hstep & Hs1 & _). cbv beta.
  apply post_bind.
  eapply post_weaken; [apply driver_call_post| |].
  2:{ intros e w2 [Hk _].
      eapply keeps_trans; [apply keeps_same_self, Hs1|exact Hk]. }
  intros _ w2 (d & Hd & _ & ->). cbv beta.
  apply post_bind.
  eapply post_weaken; [apply post_total, _random_sleep_post| |intros ? ? []].
  intros _ w3 (Hs3 & _). cbv beta.
  assert (Hk3 : forall w', keeps w3 w' -> keeps w w').
  { intros w' Hk. eapply keeps_trans; [|exact Hk].
    intros _. unfold driver_some. rewrite Hs3. simpl. discriminate. }
  apply post_bind.
  eapply post_weaken; [apply driver_call_post| |].
  2:{ intros e w4 [Hk _]. apply Hk3, Hk. }
  intros th' w4 (d' & Hd' & Hm & ->). cbv beta.
  assert (Hk4 : forall w',
             keeps (set_driver (Some (snd
               (wd_execute_script "return document.body.scrollHeight" d'))) w3)
               w' -> keeps w w').
  { intros w' Hk. apply Hk3.
    eapply keeps_trans; [apply keeps_set_driver|exact Hk]. }
  apply post_bind.
  destruct th' as [|z']; [apply post_raise, Hk4, keeps_refl|].
  apply post_ret. destruct (pos + step >=? z') eqn:Hge.
  - apply post_ret, Hk4, keeps_refl.
  - eapply post_weaken; [apply IH| |]; cbv beta.
    + destruct Hpre as [HF|(Hb & Hth & _ & Hfuel)]; [left; exact HF|right].
      apply (measure_ok H) in Hm; [|exact Hb]. simpl in Hth, Hm.
      repeat split; auto; lia.
    + intros _ w'; apply Hk4.
    + intros _ w'; apply Hk4.
Qed.

Lemma enough_fuel_spec H : H <= 200 * Z.of_nat (enough_fuel H - 1).
Proof.
  unfold enough_fuel.
  replace (Z.to_nat (H / 200) + 2 - 1)%nat with (S (Z.to_nat (H / 200))) by lia.
  rewrite Nat2Z.inj_succ.
  destruct (Z.le_gt_cases 0 H) as [Hpos|Hneg].
  - rewrite Z2Nat.id by (apply Z.div_pos; lia).
    pose proof (Z.mul_succ_div_gt H 200). lia.
  - lia.
Qed.

Lemma _scroll_slowly_post (F : Prop) H fuel w :
  F \/ (heights_bounded H /\ (enough_fuel H <= fuel)%nat) ->
  post F (_scroll_slowly fuel) w (fun _ w' => keeps w w') (fun _ _ => False).
Proof.
  intros Hpre. unfold _scroll_slowly.
  apply post_try.
  assert (Hprint : forall e w', keeps w w' ->
            post F (print [Lit ("⚠ Error during scrolling: " ++ str e)]) w'
              (fun _ w'' => keeps w w'') (fun _ _ => False)).
  { intros e w' Hk.
    eapply post_weaken; [apply post_total, print_post| |intros ? ? []].
    intros _ w'' [Hs _].
    eapply keeps_trans; [exact Hk|apply keeps_same_self, Hs]. }
  apply post_bind.
  eapply post_weaken; [apply driver_call_post| |].
  2:{ intros e w' [Hk _]. apply Hprint, Hk. }
  intros th w1 (d & Hd & Hm & ->). cbv beta.
  apply post_bind.
  eapply post_weaken; [apply driver_call_post| |].
  2:{ intros e w' [Hk _]. apply Hprint.
      eapply keeps_trans; [apply keeps_set_driver|exact Hk]. }
  intros vh w2 (d2 & Hd2 & _ & ->). cbv beta zeta.
  eapply post_weaken; [apply (scroll_loop_post F H)| |]; cbv beta.
  - destruct Hpre as [HF|[Hb Hfuel]]; [left; exact HF|right].
    apply (measure_ok H) in Hm; [|exact Hb].
    pose proof (enough_fuel_spec H). unfold enough_fuel in *.
    repeat split; auto; lia.
  - intros _ w' Hk.
    eapply keeps_trans; [apply keeps_set_driver|].
    eapply keeps_trans; [apply keeps_set_driver|exact Hk].
  - intros e w' Hk. apply Hprint.
    eapply keeps_trans; [apply keeps_set_driver|].
    eapply keeps_trans; [apply keeps_set_driver|exact Hk].
Qed.

(** C9. When every measurement of the document height gives the same
    [H], each turn of the scroll loop advances the position by a step of
    at least 200, the loop stops at once when the position has reached
    [H], and [_scroll_slowly] returns whenever it is given
    [enough_fuel H] turns or more. *)
Theorem scroll_terminates (H : Z) :
  heights_fixed H ->
  (forall w, returns (random_randint 200 400) w
               (fun step _ => 200 <= step <= 400)) /\
  (forall fuel pos w,
     H <= pos -> scroll_loop (S fuel) pos (JsInt H) w = Return tt w) /\
  (forall fuel pos w,
     H <= pos + 200 * Z.of_nat fuel ->
     scroll_loop (S fuel) pos (JsInt H) w <> OutOfFuel) /\
  (forall fuel w,
     (enough_fuel H <= fuel)%nat ->
     exists w', _scroll_slowly fuel w = Return tt w').
Proof.
  intros Hfix. pose proof (heights_fixed_bounded H Hfix) as Hb.
  split; [|split; [|split]].
  - intros w. eapply post_weaken; [apply (random_randint_post 200 400); lia| |].
    + intros step w' (Hstep & _). exact Hstep.
    + intros ? ? [].
  - intros fuel pos w Hpos. cbn [scroll_loop]. unfold bind, py_lt, ret.
    destruct (pos <? H) eqn:Hlt; [apply Z.ltb_lt in Hlt; lia|reflexivity].
  - intros fuel pos w Hfuel Hout.
    pose proof (scroll_loop_post False H (S fuel) pos (JsInt H) w) as Hp.
    unfold post in Hp. rewrite Hout in Hp. apply Hp. right.
    repeat split; auto; simpl; lia.
  - intros fuel w Hfuel.
    pose proof (_scroll_slowly_post False H fuel w (or_intror (conj Hb Hfuel)))
      as Hp.
    unfold post in Hp.
    destruct (_scroll_slowly fuel w) as [[] w'| |]; [eauto|contradiction..].
Qed.

(** *** One profile *)

Lemma driver_some_same w w' : self w' = self w -> driver_some w -> driver_some w'.
Proof. unfold driver_some. intros ->. auto. Qed.

Lemma driver_some_set d w : driver_some (set_driver (Some d) w).
Proof. unfold driver_some. simpl. discriminate. Qed.

Lemma scrape_profile_post (F : Prop) H fuel url w :
  F \/ (heights_bounded H /\ (enough_fuel H <= fuel)%nat) ->
  post F (scrape_profile fuel url) w
    (fun r w' => keeps w w' /\ scraped w url r) (fun _ _ => False).
Proof.
  intros Hpre. unfold scrape_profile.
  apply post_bind.
  eapply post_weaken; [apply post_total, print_post| |intros ? ? []].
  intros _ w0 [Hs0 _]. cbv beta.
  assert (Hhandler : forall e w', keeps w w' -> fetch_failure w url e ->
    post F
      (print [Lit ("✗ Error scraping profile " ++ url ++ ": " ++ str e)] ;;;
       ret [("url", PyStr url); ("error", PyStr (str e))]) w'
      (fun r w'' => keeps w w'' /\ scraped w url r) (fun _ _ => False)).
  { intros e w' Hk Hfail. apply post_bind.
    eapply post_weaken; [apply post_total, print_post| |intros ? ? []].
    intros _ w'' [Hs _]. apply post_ret. split.
    - eapply keeps_trans; [exact Hk|apply keeps_same_self, Hs].
    - left. exists e. split; [reflexivity|exact Hfail]. }
  apply post_try. apply post_bind.
  eapply post_weaken; [apply driver_call_post| |].
  2:{ intros e w' [Hk Hwhy]. apply Hhandler.
      - eapply keeps_trans; [apply keeps_same_self, Hs0|exact Hk].
      - destruct Hwhy as [Hno|Hget]; [left|right; left; exact Hget].
        intros Hd. apply Hno. eapply driver_some_same; eauto. }
  intros [] w1 (d & Hd & Hget & ->). cbv beta.
  set (w1 := set_driver _ w0).
  assert (Hd1 : driver_some w1) by apply driver_some_set.
  apply post_bind.
  eapply post_weaken; [apply post_total, _random_sleep_post| |intros ? ? []].
  intros _ w2 [Hs2 _]. cbv beta.
  apply post_bind.
  eapply post_weaken; [apply post_total, print_post| |intros ? ? []].
  intros _ w3 [Hs3 _]. cbv beta.
  apply post_bind.
  eapply post_weaken; [apply (_scroll_slowly_post F H), Hpre| |intros ? ? []].
  intros u4 w4 Hk4. cbv beta in Hk4 |- *.
  apply post_bind.
  eapply post_weaken; [apply post_total, _random_sleep_post| |intros ? ? []].
  intros _ w5 [Hs5 _]. cbv beta.
  assert (Hd5 : driver_some w5).
  { eapply driver_some_same; [exact Hs5|]. apply Hk4.
    eapply driver_some_same; [exact Hs3|].
    eapply driver_some_same; [exact Hs2|exact Hd1]. }
  apply post_bind.
  eapply post_weaken; [apply driver_call_post| |].
  2:{ intros e w' [Hk Hwhy]. apply Hhandler.
      - intros _. apply Hk, Hd5.
      - destruct Hwhy as [Hno|Hsrc]; [contradiction|right; right; exact Hsrc]. }
  intros src w6 (d5 & Hd5' & Hsrc & ->). cbv beta zeta.
  apply post_bind. eapply post_pure; [apply _extract_name_rule|].
  apply post_bind. eapply post_pure; [apply _extract_headline_rule|].
  apply post_bind. eapply post_pure; [apply _extract_location_rule|].
  apply post_bind. eapply post_pure; [apply _extract_about_rule|].
  apply post_bind. eapply post_pure; [apply _extract_experience_value|].
  apply post_bind. eapply post_pure; [apply _extract_education_value|].
  apply post_bind. eapply post_pure; [apply _extract_skills_value|].
  apply post_bind.
  eapply post_weaken; [apply post_total, print_post| |intros ? ? []].
  intros _ w7 [Hs7 _]. apply post_ret. split.
  - intros _. eapply driver_some_same; [exact Hs7|apply driver_some_set].
  - right. exists src. split; [exists d; exact Hget|]. split; [|reflexivity].
    exists d5, (snd (wd_page_source d5)).
    destruct (wd_page_source d5) as [r d']. simpl in Hsrc. subst r. reflexivity.
Qed.

Lemma scrape_profile_scraped fuel url w r w' :
  scrape_profile fuel url w = Return r w' -> keeps w w' /\ scraped w url r.
Proof.
  intros Hrun.
  pose proof (scrape_profile_post True 0 fuel url w (or_introl I)) as Hp.
  unfold post in Hp. rewrite Hrun in Hp. exact Hp.
Qed.

Lemma scrape_profile_never_raises fuel url w e w' :
  scrape_profile fuel url w <> Raise e w'.
Proof.
  intros Hrun.
  pose proof (scrape_profile_post True 0 fuel url w (or_introl I)) as Hp.
  unfold post in Hp. rewrite Hrun in Hp. exact Hp.
Qed.

Lemma scrape_profile_returns H fuel url w :
  heights_bounded H -> (enough_fuel H <= fuel)%nat ->
  exists r w', scrape_profile fuel url w = Return r w' /\
               keeps w w' /\ scraped w url r.
Proof.
  intros Hb Hfuel.
  pose proof (scrape_profile_post False H fuel url w (or_intror (conj Hb Hfuel)))
    as Hp.
  unfold post in Hp.
  destruct (scrape_profile fuel url w) as [r w'| |]; [eauto|contradiction..].
Qed.

(** *** Nodes below nodes *)

Lemma PageElement_ind' (Q : Bs4.PageElement -> Prop) :
  (forall s, Q (Bs4.NavigableString s)) ->
  (forall n a cs, List.Forall Q cs -> Q (Bs4.Tag n a cs)) ->
  forall e, Q e.
Proof.
  intros Hs Ht. fix IH 1. intros [s|n a cs]; [apply Hs|apply Ht].
  induction cs as [|c cs IHcs]; constructor; [apply IH|exact IHcs].
Qed.

Lemma descendants_trans e x y :
  In x (Bs4.descendants e) -> In y (Bs4.descendants x) ->
  In y (Bs4.descendants e).
Proof.
  revert x y. induction e as [s|n a cs IH] using PageElement_ind';
    intros x y Hx Hy; simpl in *; [contradiction|].
  apply in_flat_map in Hx as (c & Hc & Hx).
  apply in_flat_map. exists c. split; [exact Hc|].
  destruct Hx as [<-|Hx]; [right; exact Hy|].
  right. eapply (proj1 (List.Forall_forall _ _) IH); eauto.
Qed.

Lemma find_in e n a el : Bs4.find e n a = Some el -> In el (Bs4.descendants e).
Proof.
  intros Hf. apply find_first in Hf as (pre & post & -> & _).
  apply in_or_app. right. left. reflexivity.
Qed.

Lemma first_match_in sels soup el :
  In sels [name_selectors; headline_selectors; location_selectors;
           about_selectors] ->
  first_match sels soup = Some el -> In el (Bs4.descendants soup).
Proof.
  intros [<-|[<-|[<-|[<-|[]]]]]; simpl.
  - destruct (Bs4.find soup "h1" [("class", Bs4.MFun _)]) eqn:E1.
    + intros [= <-]. eapply find_in; eauto.
    + destruct (Bs4.find soup "h1" [("class", Bs4.MStr _)]) eqn:E2;
        [|discriminate].
      intros [= <-]. eapply find_in; eauto.
  - destruct (Bs4.find soup "div" _) eqn:E1; [|discriminate].
    intros [= <-]. eapply find_in; eauto.
  - destruct (Bs4.find soup "span" _) eqn:E1; [|discriminate].
    intros [= <-]. eapply find_in; eauto.
  - destruct (Bs4.find soup "div" _) as [sec|] eqn:E1; [|discriminate].
    destruct (Bs4.find sec "div" _) eqn:E2; [|discriminate].
    intros [= <-]. eapply descendants_trans; eapply find_in; eauto.
Qed.

Lemma field_rule_extracted sels soup :
  In sels [name_selectors; headline_selectors; location_selectors;
           about_selectors] ->
  extracted_or "N/A" soup (PyStr (field_rule "N/A" sels soup)).
Proof.
  intros Hsels. eexists. split; [reflexivity|]. unfold field_rule.
  destruct (first_match sels soup) as [el|] eqn:E; [right|left; reflexivity].
  exists el. split; [eapply first_match_in; eauto|reflexivity].
Qed.

(** *** The two shapes *)

Lemma error_record_shape url e : error_shape (error_record url e).
Proof.
  split; [reflexivity|].
  intros k Hk. simpl in Hk.
  repeat (destruct Hk as [<-|Hk]; [reflexivity|]). contradiction.
Qed.

Lemma profile_record_shape url soup :
  success_shape "N/A" soup (profile_record url soup).
Proof.
  split; intros k Hk; simpl in Hk.
  - destruct Hk as [<-|[<-|[<-|[<-|[]]]]]; eexists; (split; [reflexivity|]);
      apply field_rule_extracted; simpl; auto.
  - destruct Hk as [<-|[<-|[<-|[]]]]; eexists; reflexivity.
Qed.

Lemma shapes_exclusive sentinel soup r :
  success_shape sentinel soup r -> error_shape r -> False.
Proof.
  intros [Hcore _] [_ Hnone].
  destruct (Hcore "name") as (v & Hv & _); [left; reflexivity|].
  rewrite Hnone in Hv; [discriminate|left; reflexivity].
Qed.

Lemma scraped_shape w url r : scraped w url r -> record_shape "N/A" r.
Proof.
  intros [(e & -> & _)|(src & _ & Hsrc & ->)].
  - right. split; [apply error_record_shape|].
    intros (src & _ & Hs). eapply shapes_exclusive; [exact Hs|].
    apply error_record_shape.
  - left. split.
    + exists src. split; [exact Hsrc|apply profile_record_shape].
    + intros He. eapply shapes_exclusive; [apply profile_record_shape|exact He].
Qed.

(** C3, amended. Every record [scrape_profile] returns has exactly one of
    two shapes: the four core fields hold the trimmed text of a node of the
    page or the sentinel ["N/A"] and the three list fields hold lists; or
    the [error] key is set and none of those seven fields is present.
    [scrape_profile] raises nothing, and returns such a record whenever
    the page heights are bounded and the scroll loop has fuel enough. *)
Theorem record_shape_invariant :
  (forall fuel url w r w',
     scrape_profile fuel url w = Return r w' -> record_shape "N/A" r) /\
  (forall fuel url w e w', scrape_profile fuel url w <> Raise e w') /\
  (forall H fuel url w,
     heights_bounded H -> (enough_fuel H <= fuel)%nat ->
     exists r w',
       scrape_profile fuel url w = Return r w' /\ record_shape "N/A" r).
Proof.
  split; [|split].
  - intros fuel url w r w' Hrun.
    eapply scraped_shape, scrape_profile_scraped, Hrun.
  - apply scrape_profile_never_raises.
  - intros H fuel url w Hb Hfuel.
    destruct (scrape_profile_returns H fuel url w Hb Hfuel)
      as (r & w' & Hrun & _ & Hs).
    exists r, w'. split; [exact Hrun|eapply scraped_shape, Hs].
Qed.

Lemma scrape_profile_nav_failure fuel url w d e :
  driver (self w) = Some d ->
  fst (wd_get url d) = inl e ->
  exists w',
    scrape_profile fuel url w = Return (error_record url e) w' /\
    driver_some w'.
Proof.
  intros Hd Hget.
  unfold scrape_profile, bind, try_except, print, driver_call. simpl.
  rewrite Hd. destruct (wd_get url d) as [r d']. simpl in Hget. subst r.
  eexists. split; [reflexivity|]. unfold driver_some. simpl. discriminate.
Qed.

(** C10. A record of [scrape_profile] that carries [error] is exactly the
    pair of the input URL under [url] and the message under [error]; a
    navigation failure makes [scrape_profile] return that record. *)
Theorem error_record_keeps_url :
  (forall fuel url w r w',
     scrape_profile fuel url w = Return r w' ->
     dict_mem "error" r = true ->
     dict_get "url" r = Some (PyStr url) /\
     exists e, r = [("url", PyStr url); ("error", PyStr (str e))]) /\
  (forall fuel url w d e,
     driver (self w) = Some d ->
     fst (wd_get url d) = inl e ->
     exists w',
       scrape_profile fuel url w
       = Return [("url", PyStr url); ("error", PyStr (str e))] w').
Proof.
  split.
  - intros fuel url w r w' Hrun Herr.
    apply scrape_profile_scraped in Hrun
      as [_ [(e & -> & _)|(src & _ & _ & ->)]].
    + split; [reflexivity|]. exists e. reflexivity.
    + discriminate Herr.
  - intros fuel url w d e Hd Hget.
    destruct (scrape_profile_nav_failure fuel url w d e Hd Hget)
      as (w' & Hrun & _).
    exists w'. exact Hrun.
Qed.

(** *** The batch *)

Lemma random_uniform_post lo hi w :
  returns (random_uniform lo hi) w (fun _ w' => self w' = self w /\ fs w' = fs w).
Proof. split; reflexivity. Qed.

Lemma time_sleep_post secs w :
  returns (time_sleep secs) w (fun _ w' => self w' = self w /\ fs w' = fs w).
Proof. split; reflexivity. Qed.

Lemma scraped_same_self w w' url r :
  self w' = self w -> scraped w' url r -> scraped w url r.
Proof.
  intros Hs [(e & -> & Hf)|Hok]; [left|right; exact Hok].
  exists e. split; [reflexivity|].
  destruct Hf as [Hno|Hf]; [left|right; exact Hf].
  intros Hd. apply Hno. eapply driver_some_same; eauto.
Qed.

Lemma scraped_attributed w url r : scraped w url r -> attributed url r.
Proof.
  intros Hs. split; [|eapply scraped_shape, Hs].
  destruct Hs as [(e & -> & _)|(src & _ & _ & ->)]; reflexivity.
Qed.

Lemma batch_step_post (F : Prop) H fuel total i url st w :
  F \/ (heights_bounded H /\ (enough_fuel H <= fuel)%nat) ->
  post F (batch_step fuel total (i, url) st) w
    (fun st' w' => keeps w w' /\ exists r, scraped w url r /\ st' = tally st r)
    (fun _ _ => False).
Proof.
  intros Hpre. destruct st as [[all s] f]. unfold batch_step.
  apply post_bind.
  eapply post_weaken; [apply post_total, print_post| |intros ? ? []].
  intros _ w1 [Hs1 _]. cbv beta.
  apply post_bind.
  eapply post_weaken; [apply post_total, print_post| |intros ? ? []].
  intros _ w2 [Hs2 _]. cbv beta.
  apply post_bind.
  eapply post_weaken; [apply post_total, print_post| |intros ? ? []].
  intros _ w3 [Hs3 _]. cbv beta.
  assert (Hs03 : self w3 = self w) by congruence.
  apply post_bind.
  eapply post_weaken; [apply (scrape_profile_post F H), Hpre| |intros ? ? []].
  intros r w4 [Hk4 Hr]. cbv beta zeta.
  apply (scraped_same_self w) in Hr; [|exact Hs03].
  assert (Hk : keeps w w4).
  { eapply keeps_trans; [apply keeps_same_self, Hs03|exact Hk4]. }
  assert (Hfin : forall w5, self w5 = self w4 ->
    post F
      (ret (let '(successful, failed) :=
              if dict_mem "error" r then (s, f + 1) else (s + 1, f) in
            (all ++ [r], successful, failed))) w5
      (fun st' w' =>
         keeps w w' /\ exists r0, scraped w url r0 /\ st' = tally (all, s, f) r0)
      (fun _ _ => False)).
  { intros w5 Hs5. apply post_ret. split.
    - eapply keeps_trans; [exact Hk|apply keeps_same_self, Hs5].
    - exists r. split; [exact Hr|]. unfold tally.
      destruct (dict_mem "error" r); reflexivity. }
  destruct (dict_mem "error" r) eqn:Herr.
  all: apply post_bind.
  all: destruct (i <? total).
  all: try (apply post_ret; apply Hfin; reflexivity).
  all: apply post_bind;
    (eapply post_weaken;
       [apply post_total, random_uniform_post| |intros ? ? []]);
    intros delay w5 [Hs5 _]; cbv beta;
    apply post_bind;
    (eapply post_weaken; [apply post_total, print_post| |intros ? ? []]);
    intros _ w6 [Hs6 _]; cbv beta;
    (eapply post_weaken; [apply post_total, time_sleep_post| |intros ? ? []]);
    intros _ w7 [Hs7 _]; cbv beta;
    apply Hfin; congruence.
Qed.

Lemma scraped_after_weaken w w1 url r :
  keeps w w1 -> scraped_after w1 url r -> scraped_after w url r.
Proof.
  intros Hk (wi & Hki & Hs). exists wi. split; [|exact Hs].
  eapply keeps_trans; eauto.
Qed.

Lemma batch_fold_post (F : Prop) H fuel total :
  F \/ (heights_bounded H /\ (enough_fuel H <= fuel)%nat) ->
  forall urls start st w,
    post F (for_each (enumerate start urls) (batch_step fuel total) st) w
      (fun st' w' =>
         keeps w w' /\
         exists recs,
           Forall2 (scraped_after w) urls recs /\
           st' = fold_left tally recs st)
      (fun _ _ => False).
Proof.
  intros Hpre urls; induction urls as [|url urls IH]; intros start st w.
  - apply post_ret. split; [apply keeps_refl|].
    exists []. split; [constructor|reflexivity].
  - cbn [enumerate for_each]. apply post_bind.
    eapply post_weaken; [apply (batch_step_post F H), Hpre| |intros ? ? []].
    intros st1 w1 (Hk1 & r & Hr & ->). cbv beta.
    eapply post_weaken; [apply IH| |intros ? ? []].
    intros st2 w2 (Hk2 & recs & Hrecs & ->). cbv beta. split.
    + eapply keeps_trans; eauto.
    + exists (r :: recs). split; [|reflexivity].
      constructor.
      * exists w. split; [apply keeps_refl|exact Hr].
      * eapply Forall2_impl; [exact Hrecs|].
        intros u r0. apply scraped_after_weaken, Hk1.
Qed.

Lemma tally_counts recs all s f :
  fold_left tally recs (all, s, f)
  = (all ++ recs, s + count_clean recs, f + count_errors recs).
Proof.
  revert all s f; induction recs as [|r recs IH]; intros all s f.
  - unfold count_clean, count_errors. simpl.
    rewrite app_nil_r, !Z.add_0_r. reflexivity.
  - cbn [fold_left]. unfold tally at 2.
    unfold count_clean, count_errors in *. cbn [List.filter].
    destruct (dict_mem "error" r); rewrite IH, <- app_assoc;
      cbn [negb List.length app]; rewrite Nat2Z.inj_succ;
      repeat (f_equal; try lia).
Qed.

Lemma scraped_after_attributed w url r : scraped_after w url r -> attributed url r.
Proof. intros (wi & _ & Hs). eapply scraped_attributed, Hs. Qed.

(** *** Writing the table never fails the run *)

Lemma open_w_post F p w :
  post F (open_w p) w (fun _ w' => self w' = self w)
    (fun _ w' => self w' = self w).
Proof.
  unfold post, open_w. destruct (dir_searchable (fs w)); [|reflexivity].
  destruct (files (fs w) !! p) as [f|].
  - destruct (writable f); reflexivity.
  - destruct (dir_writable (fs w)); reflexivity.
Qed.

Lemma file_write_post F p data w :
  post F (file_write p data) w (fun _ w' => self w' = self w)
    (fun _ w' => self w' = self w).
Proof.
  unfold post, file_write. destruct (files (fs w) !! p) as [f|]; reflexivity.
Qed.

Lemma write_rows_post F {A} (rows : list A) (line : A -> string) p w :
  post F (for_each rows (fun row _ => file_write p (line row)) tt) w
    (fun _ w' => self w' = self w) (fun _ w' => self w' = self w).
Proof.
  revert w; induction rows as [|row rows IH]; intros w; cbn [for_each].
  - apply post_ret. reflexivity.
  - apply post_bind.
    eapply post_weaken; [apply file_write_post| |intros ? ? Hs; exact Hs].
    intros [] w1 Hs1. cbv beta.
    eapply post_weaken; [apply IH| |]; cbv beta; intros; congruence.
Qed.

Lemma _save_to_csv_post profiles filename w :
  returns (_save_to_csv profiles filename) w (fun _ w' => self w' = self w).
Proof.
  unfold returns, _save_to_csv. destruct profiles as [|p0 ps].
  { eapply post_weaken; [apply print_post| |intros ? ? []].
    intros _ w' [Hs _]. exact Hs. }
  set (profiles := p0 :: ps). cbv zeta.
  apply post_try.
  assert (Hh : forall e w', self w' = self w ->
            post False (print [Lit ("✗ Error saving to CSV: " ++ str e)]) w'
              (fun _ w'' => self w'' = self w) (fun _ _ => False)).
  { intros e w' Hs. eapply post_weaken; [apply print_post| |intros ? ? []].
    intros _ w'' [Hs' _]. congruence. }
  apply post_bind.
  eapply post_weaken; [apply open_w_post| |intros e w' Hs; apply Hh, Hs].
  intros u1 w1 Hs1. cbv beta in Hs1 |- *.
  apply post_bind.
  eapply post_weaken; [apply file_write_post| |].
  2:{ intros e w' Hs. apply Hh. congruence. }
  intros u2 w2 Hs2. cbv beta in Hs2 |- *.
  apply post_bind.
  eapply post_weaken; [apply write_rows_post| |].
  2:{ intros e w' Hs. apply Hh. congruence. }
  intros u3 w3 Hs3. cbv beta in Hs3 |- *.
  eapply post_weaken; [apply print_post| |intros ? ? []].
  intros _ w4 [Hs4 _]. congruence.
Qed.

(** *** The whole batch *)

Lemma batch_loop_returns H fuel urls w :
  heights_bounded H -> (enough_fuel H <= fuel)%nat ->
  exists recs w1,
    batch_loop fuel urls w
    = Return (recs, count_clean recs, count_errors recs) w1 /\
    keeps w w1 /\ Forall2 (scraped_after w) urls recs.
Proof.
  intros Hb Hfuel.
  pose proof (batch_fold_post False H fuel (Z.of_nat (List.length urls))
                (or_intror (conj Hb Hfuel)) urls 1 ([], 0, 0) w) as Hp.
  apply returns_elim in Hp as (st & w1 & Hrun & Hk & recs & Hrecs & ->).
  exists recs, w1. rewrite tally_counts in Hrun. auto.
Qed.

(** The lines that close the report of a batch. *)
Lemma scrape_multiple_profiles_returns H fuel urls out w :
  heights_bounded H -> (enough_fuel H <= fuel)%nat -> urls <> [] ->
  exists recs w1 w',
    batch_loop fuel urls w
    = Return (recs, count_clean recs, count_errors recs) w1 /\
    scrape_multiple_profiles fuel urls out w = Return recs w' /\
    Forall2 (scraped_after w) urls recs /\
    exists rate rest,
      stdout w'
      = [Lit "Success rate: "; Fixed1 rate; Lit "%"]
        :: [Lit ("Failed: " ++ Py.str_of_Z (count_errors recs))]
        :: [Lit ("Successful: " ++ Py.str_of_Z (count_clean recs))]
        :: rest.
Proof.
  intros Hb Hfuel Hne.
  destruct (batch_loop_returns H fuel urls w Hb Hfuel)
    as (recs & w1 & Hloop & Hk & Hrecs).
  destruct (returns_elim _ _ _ (_save_to_csv_post recs out w1))
    as ([] & w2 & Hcsv & Hs2).
  exists recs, w1. eexists. split; [exact Hloop|].
  unfold scrape_multiple_profiles, bind. rewrite Hloop, Hcsv.
  unfold true_div.
  destruct (Z.of_nat (List.length urls) =? 0) eqn:Hz.
  { apply Z.eqb_eq in Hz. destruct urls; [contradiction|simpl in Hz; lia]. }
  cbn. split; [reflexivity|]. split; [exact Hrecs|].
  eexists _, _. reflexivity.
Qed.

(** C1 at the empty list: after the report lines, the success rate
    divides by [len(profile_urls)], which is zero, and
    [scrape_multiple_profiles] raises [ZeroDivisionError] instead of
    returning the (empty) batch result. *)
Theorem empty_batch_raises (fuel : nat) (out : string) (w : World) :
  exists w',
    scrape_multiple_profiles fuel [] out w
    = Raise (ZeroDivisionError "division by zero") w'.
Proof. eexists. reflexivity. Qed.






(** *** The session store *)

(** The loop of [load_cookies] hands every cookie to the browser and
    goes on when one is refused. *)
Lemma add_cookies_run cookies :
  forall w d,
    driver (self w) = Some d ->
    exists w',
      for_each cookies
        (fun cookie _ =>
           try_except (driver_call "add_cookie" (wd_add_cookie cookie))
             (fun e => ret tt))
        tt w
      = Return tt w' /\
      driver (self w') = Some (inject cookies d) /\
      fs w' = fs w /\ stdout w' = stdout w.
Proof.
  induction cookies as [|c cookies IH]; intros w d Hd; cbn [for_each inject].
  - exists w. auto.
  - destruct (IH (set_driver (Some (snd (wd_add_cookie c d))) w)
                (snd (wd_add_cookie c d)) eq_refl)
      as (w' & Hrun & Hd' & Hfs & Hout).
    exists w'. split; [|auto].
    unfold bind at 1. unfold try_except at 1. unfold driver_call at 1.
    rewrite Hd. destruct (wd_add_cookie c d) as [[e|[]] d']; exact Hrun.
Qed.

Lemma load_cookies_total w :
  dir_searchable (fs w) = true -> exists b w', load_cookies w = Return b w'.
Proof.
  intros Hx.
  unfold load_cookies, bind, get_self, path_exists. unfold try_except at 1.
  rewrite Hx. destruct (bool_decide _); [|eauto].
  unfold driver_call at 1.
  destruct (driver (self w)) as [d|] eqn:Hd; [|cbn; eauto].
  destruct (wd_get "https://www.linkedin.com" d) as [[e|[]] d1]; [cbn; eauto|].
  unfold open_r. cbn [fs set_driver set_fs]. rewrite Hx.
  destruct (files (fs w) !! cookies_file (self w)) as [f|]; [|cbn; eauto].
  destruct (readable f); [|cbn; eauto].
  unfold pickle_load.
  destruct (pickle_loads (content f)) as [cookies|]; [|cbn; eauto].
  unfold ret at 1.
  destruct (add_cookies_run cookies (set_driver (Some d1) w) d1 eq_refl)
    as (w' & Hrun & _).
  rewrite Hrun. cbn. eauto.
Qed.

Lemma load_cookies_missing w :
  dir_searchable (fs w) = true ->
  files (fs w) !! cookies_file (self w) = None ->
  load_cookies w = Return false w.
Proof.
  intros Hx Hnone. unfold load_cookies, bind, get_self, path_exists.
  rewrite Hx, Hnone. rewrite bool_decide_eq_false_2; [reflexivity|].
  intros [x Hsome]. discriminate.
Qed.

Lemma load_cookies_corrupt w f :
  dir_searchable (fs w) = true ->
  files (fs w) !! cookies_file (self w) = Some f ->
  readable f = false \/ pickle_loads (content f) = None ->
  exists w', load_cookies w = Return false w'.
Proof.
  intros Hx Hf Hbad. unfold load_cookies, bind, get_self, path_exists.
  unfold try_except at 1.
  rewrite Hx, Hf. rewrite bool_decide_eq_true_2 by eauto.
  unfold driver_call at 1.
  destruct (driver (self w)) as [d|] eqn:Hd; [|cbn; eauto].
  destruct (wd_get "https://www.linkedin.com" d) as [[e|[]] d1]; [cbn; eauto|].
  unfold open_r. cbn [fs set_driver set_fs]. rewrite Hx, Hf.
  destruct (readable f); [|cbn; eauto].
  destruct Hbad as [Hr|Hp]; [discriminate|].
  unfold pickle_load. rewrite Hp. cbn. eauto.
Qed.

Lemma save_cookies_total w : exists w', save_cookies w = Return tt w'.
Proof.
  unfold save_cookies, bind, get_self, try_except.
  destruct (open_w (cookies_file (self w)) w) as [[] w1|e w1|] eqn:Hopen.
  - unfold driver_call.
    destruct (driver (self w1)) as [d|]; [|cbn; eauto].
    destruct (wd_get_cookies d) as [[e|cookies] d1]; [cbn; eauto|].
    destruct (file_write (cookies_file (self w)) (pickle_dumps cookies)
                (set_driver (Some d1) w1)) as [[] w2|e w2|] eqn:Hwrite;
      [cbn; eauto|cbn; eauto|].
    unfold file_write in Hwrite. destruct (files _ !! _); discriminate.
  - cbn. eauto.
  - unfold open_w in Hopen.
    destruct (dir_searchable _); [|discriminate].
    destruct (files _ !! _) as [f|];
      [destruct (writable f)|destruct (dir_writable _)]; discriminate.
Qed.

Lemma save_cookies_denied w :
  creatable (fs w) (cookies_file (self w)) = false ->
  exists w', save_cookies w = Return tt w' /\ fs w' = fs w /\ self w' = self w.
Proof.
  intros Hno. unfold creatable in Hno.
  unfold save_cookies, bind, get_self, try_except, open_w.
  destruct (dir_searchable (fs w)); [|cbn; eauto].
  cbn [andb] in Hno.
  destruct (files (fs w) !! cookies_file (self w)) as [f|];
    rewrite Hno; cbn; eauto.
Qed.

(** The [stat] of [Path.exists] is made before the [try] is entered. *)
Lemma load_cookies_stat_error w :
  dir_searchable (fs w) = false ->
  load_cookies w = Raise (permission_denied (cookies_file (self w))) w.
Proof.
  intros Hx. unfold load_cookies, bind, get_self, path_exists.
  rewrite Hx. reflexivity.
Qed.

(** C8. [load_cookies] can raise on storage it cannot read.  It asks
    [Path.exists] for the cookie file before it enters its [try]; when
    the directory of the file may not be searched, that call raises the
    [PermissionError] of [stat], and [load_cookies] ends with this
    exception in place of returning [False]: nothing is printed and the
    browser is not touched.  The other half of the contract holds:
    [save_cookies], whose [open] stands inside its [try], returns from
    every world, and when the file cannot be opened for writing it
    leaves files and scraper as they were. *)
Theorem load_cookies_raises_before_try (w : World) :
  (dir_searchable (fs w) = false ->
   load_cookies w = Raise (permission_denied (cookies_file (self w))) w) /\
  (exists w', save_cookies w = Return tt w') /\
  (creatable (fs w) (cookies_file (self w)) = false ->
   exists w',
     save_cookies w = Return tt w' /\ fs w' = fs w /\ self w' = self w).
Proof.
  split; [apply load_cookies_stat_error|].
  split; [apply save_cookies_total|apply save_cookies_denied].
Qed.

Lemma save_cookies_stores w d cs :
  driver (self w) = Some d ->
  fst (wd_get_cookies d) = inr cs ->
  storable (fs w) (cookies_file (self w)) = true ->
  exists w1 f,
    save_cookies w = Return tt w1 /\
    files (fs w1) !! cookies_file (self w) = Some f /\
    content f = pickle_dumps cs /\ readable f = true /\
    dir_searchable (fs w1) = true.
Proof.
  intros Hd Hcs Hst.
  unfold save_cookies, bind, get_self, try_except, open_w, storable in *.
  apply andb_prop in Hst as [Hx Hst]. rewrite Hx.
  destruct (wd_get_cookies d) as [r d1] eqn:Hget. simpl in Hcs. subst r.
  destruct (files (fs w) !! cookies_file (self w)) as [f|] eqn:Hf.
  - apply andb_prop in Hst as [Hw Hr]. rewrite Hw.
    unfold driver_call. cbn [self set_fs]. rewrite Hd, Hget.
    unfold file_write, set_fs, set_driver. cbn [fs files].
    rewrite lookup_insert_eq. cbn.
    eexists _, _. split; [reflexivity|]. cbn.
    rewrite lookup_insert_eq. auto.
  - rewrite Hst.
    unfold driver_call. cbn [self set_fs]. rewrite Hd, Hget.
    unfold file_write, set_fs, set_driver. cbn [fs files].
    rewrite lookup_insert_eq. cbn.
    eexists _, _. split; [reflexivity|]. cbn.
    rewrite lookup_insert_eq. auto.
Qed.

Lemma load_cookies_restores w f cs d :
  dir_searchable (fs w) = true ->
  files (fs w) !! cookies_file (self w) = Some f ->
  readable f = true ->
  pickle_loads (content f) = Some cs ->
  driver (self w) = Some d ->
  fst (wd_get "https://www.linkedin.com" d) = inr tt ->
  exists w',
    load_cookies w = Return true w' /\
    driver (self w')
    = Some (inject cs (snd (wd_get "https://www.linkedin.com" d))) /\
    fs w' = fs w.
Proof.
  intros Hx Hf Hr Hp Hd Hget.
  unfold load_cookies, bind, get_self, path_exists. unfold try_except at 1.
  rewrite Hx, Hf. rewrite bool_decide_eq_true_2 by eauto.
  unfold driver_call at 1. rewrite Hd.
  destruct (wd_get "https://www.linkedin.com" d) as [r d1]. simpl in Hget.
  subst r. unfold open_r. cbn [fs set_driver set_fs]. rewrite Hx, Hf, Hr.
  unfold pickle_load. rewrite Hp. unfold ret at 1.
  destruct (add_cookies_run cs (set_driver (Some d1) w) d1 eq_refl)
    as (w' & Hrun & Hd' & Hfs & _).
  rewrite Hrun. cbn. eexists. split; [reflexivity|]. cbn. auto.
Qed.

(** C7. When [save_cookies] can write the cookie file, the file holds the
    pickle of the cookie list [cs] the browser gave, and that pickle loads
    back as [cs]: every cookie with its name, value, domain, path and
    expiry, in the same order.  A later [load_cookies] over that file
    returns [True] and has handed exactly the cookies of [cs], in order,
    to the browser it runs with. *)
Theorem cookie_round_trip (w : World) (d : Driver) (cs : list Cookie) :
  driver (self w) = Some d ->
  fst (wd_get_cookies d) = inr cs ->
  storable (fs w) (cookies_file (self w)) = true ->
  pickle_loads (pickle_dumps cs) = Some cs ->
  exists w1,
    save_cookies w = Return tt w1 /\
    stored (fs w1) (cookies_file (self w)) = Some (pickle_dumps cs) /\
    (stored (fs w1) (cookies_file (self w)) ≫= pickle_loads) = Some cs /\
    forall w2 d2,
      fs w2 = fs w1 ->
      cookies_file (self w2) = cookies_file (self w) ->
      driver (self w2) = Some d2 ->
      fst (wd_get "https://www.linkedin.com" d2) = inr tt ->
      exists w3,
        load_cookies w2 = Return true w3 /\
        driver (self w3)
        = Some (inject cs (snd (wd_get "https://www.linkedin.com" d2))).
Proof.
  intros Hd Hcs Hst Hpickle.
  destruct (save_cookies_stores w d cs Hd Hcs Hst)
    as (w1 & f & Hsave & Hf & Hcontent & Hr & Hx).
  exists w1. split; [exact Hsave|].
  assert (Hstored : stored (fs w1) (cookies_file (self w))
                    = Some (pickle_dumps cs)).
  { unfold stored. rewrite Hf. cbn. rewrite Hcontent. reflexivity. }
  split; [exact Hstored|]. split; [rewrite Hstored; exact Hpickle|].
  intros w2 d2 Hfs Hfile Hd2 Hget.
  destruct (load_cookies_restores w2 f cs d2) as (w3 & Hload & Hd3 & _); auto.
  - rewrite Hfs. exact Hx.
  - rewrite Hfs, Hfile. exact Hf.
  - rewrite Hcontent. exact Hpickle.
  - exists w3. auto.
Qed.

End Properties.

(** * Further properties *)

Section MoreProperties.

Context `{P : Platform}.

(** *** Scraping before logging in *)

Lemma scrape_profile_no_driver fuel url w :
  driver (self w) = None ->
  exists w',
    scrape_profile fuel url w = Return (no_driver_record url) w' /\
    self w' = self w /\ fs w' = fs w.
Proof.
  intros Hd. unfold scrape_profile, bind, try_except, print, driver_call.
  simpl. rewrite Hd. eexists. repeat split.
Qed.

Lemma batch_step_no_driver fuel total i url all s f w :
  driver (self w) = None ->
  exists w',
    batch_step fuel total (i, url) (all, s, f) w
    = Return (all ++ [no_driver_record url], s, f + 1) w' /\
    self w' = self w /\ fs w' = fs w.
Proof.
  intros Hd. unfold batch_step. unfold bind at 1 2 3. cbn [print].
  set (w3 := mkWorld _ _ _ _ _ _).
  destruct (scrape_profile_no_driver fuel url w3 Hd) as (w4 & Hrun & Hs & Hf).
  unfold bind at 1. rewrite Hrun.
  cbn [dict_mem no_driver_record existsb fst String.eqb Ascii.eqb Bool.eqb orb].
  destruct (i <? total); eexists; (split; [reflexivity|]); cbn; auto.
Qed.

Lemma batch_fold_no_driver fuel total urls :
  forall start all s f w,
    driver (self w) = None ->
    exists w',
      for_each (enumerate start urls) (batch_step fuel total) (all, s, f) w
      = Return (all ++ List.map no_driver_record urls, s,
                f + Z.of_nat (List.length urls)) w' /\
      self w' = self w.
Proof.
  induction urls as [|url urls IH]; intros start all s f w Hd.
  - exists w. cbn. rewrite app_nil_r, Z.add_0_r. auto.
  - cbn [enumerate for_each].
    destruct (batch_step_no_driver fuel total start url all s f w Hd)
      as (w1 & Hstep & Hs1 & _).
    unfold bind. rewrite Hstep.
    destruct (IH (start + 1) (all ++ [no_driver_record url]) s (f + 1) w1)
      as (w2 & Hrest & Hs2); [rewrite Hs1; exact Hd|].
    exists w2. rewrite Hrest. split; [|congruence].
    rewrite <- app_assoc. cbn [List.map List.length app].
    rewrite Nat2Z.inj_succ.
    replace (f + 1 + Z.of_nat (List.length urls))
      with (f + Z.succ (Z.of_nat (List.length urls))) by lia.
    reflexivity.
Qed.

(** X1. A scraper whose driver was never set up (no [login]) does not
    crash: [scrape_profile] returns, for any URL, the record of that URL
    with the [AttributeError] text under [error], and the batch loop
    tags every URL that way, counting all of them as failed and none as
    successful. *)
Theorem scraping_without_driver (fuel : nat) (w : World) :
  driver (self w) = None ->
  (forall url,
     exists w',
       scrape_profile fuel url w = Return (no_driver_record url) w' /\
       fs w' = fs w) /\
  (forall urls,
     exists w',
       batch_loop fuel urls w
       = Return (List.map no_driver_record urls, 0,
                 Z.of_nat (List.length urls)) w').
Proof.
  intros Hd. split.
  - intros url.
    destruct (scrape_profile_no_driver fuel url w Hd) as (w' & Hrun & _ & Hf).
    eauto.
  - intros urls. unfold batch_loop.
    destruct (batch_fold_no_driver fuel (Z.of_nat (List.length urls)) urls
                1 [] 0 0 w Hd) as (w' & Hrun & _).
    exists w'. exact Hrun.
Qed.

(** *** The counters of the batch *)

Lemma counts_add_up (recs : list Dict) :
  count_clean recs + count_errors recs = Z.of_nat (List.length recs).
Proof.
  unfold count_clean, count_errors.
  induction recs as [|r recs IH]; [reflexivity|].
  cbn [List.filter List.length]. destruct (dict_mem "error" r);
    cbn [negb List.length]; lia.
Qed.

(** X2. Whatever the list of URLs, the empty one included, the batch
    loop ends with one record per URL, [successful] the number of records
    without [error], [failed] the number with it, and the two add up to
    the number of URLs. *)
Theorem batch_counters (H : Z) (fuel : nat) (urls : list string) (w : World) :
  heights_bounded H -> (enough_fuel H <= fuel)%nat ->
  exists recs successful failed w',
    batch_loop fuel urls w = Return (recs, successful, failed) w' /\
    List.length recs = List.length urls /\
    successful = count_clean recs /\
    failed = count_errors recs /\
    successful + failed = Z.of_nat (List.length urls) /\
    0 <= successful /\ 0 <= failed.
Proof.
  intros Hb Hfuel.
  destruct (batch_loop_returns H fuel urls w Hb Hfuel)
    as (recs & w1 & Hloop & _ & Hrecs).
  exists recs, (count_clean recs), (count_errors recs), w1.
  assert (Hlen : List.length recs = List.length urls).
  { symmetry. eapply Forall2_length, Hrecs. }
  split; [exact Hloop|]. split; [exact Hlen|].
  split; [reflexivity|]. split; [reflexivity|].
  split; [rewrite counts_add_up, Hlen; reflexivity|].
  unfold count_clean, count_errors. lia.
Qed.

End MoreProperties.

Section MoreProperties2.

Context `{P : Platform}.

(** *** What the list extractors put in their lists *)

Lemma text_or_na_trimmed o : trimmed (text_or_na o).
Proof.
  destruct o as [el|]; [apply strip_trimmed|split; reflexivity].
Qed.

Lemma text_or_na_node o : node_text o (text_or_na o).
Proof. destruct o; reflexivity. Qed.

Lemma experience_entry_shape item :
  entry_shape "title" "company" item (experience_entry item).
Proof.
  eexists _, _. split; [reflexivity|].
  repeat split; first [apply text_or_na_node|apply text_or_na_trimmed].
Qed.

Lemma education_entry_shape item :
  entry_shape "school" "degree" item (education_entry item).
Proof.
  eexists _, _. split; [reflexivity|].
  repeat split; first [apply text_or_na_node|apply text_or_na_trimmed].
Qed.

Lemma entries_of_items {A B} (R : A -> B -> Prop) (f : A -> B) (l : list A) :
  (forall x, R x (f x)) -> Forall2 R l (List.map f l).
Proof.
  intros Hf. induction l as [|x l IH]; constructor; [apply Hf|exact IH].
Qed.

Lemma add_skill_texts items :
  forall acc, fold_left add_skill items acc = acc ++ skill_texts items.
Proof.
  induction items as [|item items IH]; intros acc.
  - cbn. rewrite app_nil_r. reflexivity.
  - cbn [fold_left]. rewrite IH. unfold add_skill, skill_texts, text_of.
    cbn [List.map List.filter Py.truthy].
    destruct (negb (String.eqb (Py.strip (Bs4.get_text item)) ""));
      [rewrite <- app_assoc|]; reflexivity.
Qed.

Lemma skill_texts_shape items :
  Forall (fun s => s <> "" /\ trimmed s) (skill_texts items).
Proof.
  apply List.Forall_forall. intros s Hin.
  apply filter_In in Hin as [Hin Hne].
  apply in_map_iff in Hin as (item & <- & _). split.
  - intros Hempty. rewrite Hempty in Hne. discriminate.
  - apply strip_trimmed.
Qed.

(** X3. The experience list holds one entry for each of the first five
    items of the experience section, in their order: exactly the keys
    [title] and [company], with the trimmed text of the item's title and
    company nodes, and ['N/A'] for a node the item lacks.  The education
    list holds, in the same way, the keys [school] and [degree] for the
    first three items of the education section.  The skills list is the
    trimmed texts of the first ten skill items, in order, blank ones
    skipped, so it holds only non-empty trimmed strings.  A section that
    is missing gives the empty list. *)
Theorem list_entries_shape (soup : Bs4.PageElement) (w : World) :
  exists experience education skills,
    _extract_experience soup w = Return experience w /\
    _extract_education soup w = Return education w /\
    _extract_skills soup w = Return skills w /\
    Forall2 (entry_shape "title" "company")
      (list_items soup "experience" "li" "profile-section-card" 5)
      experience /\
    Forall2 (entry_shape "school" "degree")
      (list_items soup "education" "li" "profile-section-card" 3)
      education /\
    skills = skill_texts (list_items soup "skills" "div" "mr1" 10) /\
    Forall (fun s => s <> "" /\ trimmed s) skills.
Proof.
  eexists _, _, _.
  split; [apply _extract_experience_value|].
  split; [apply _extract_education_value|].
  split; [apply _extract_skills_value|].
  unfold list_items.
  split; [|split; [|split]].
  - destruct (Bs4.find soup "section" _); [|constructor].
    apply entries_of_items, experience_entry_shape.
  - destruct (Bs4.find soup "section" _); [|constructor].
    apply entries_of_items, education_entry_shape.
  - destruct (Bs4.find soup "section" _); [|reflexivity].
    apply add_skill_texts.
  - destruct (Bs4.find soup "section" _); [|constructor].
    rewrite add_skill_texts. apply skill_texts_shape.
Qed.

(** X4. In [_extract_name] the first selector wins as soon as it finds a
    node, whatever the text of that node: the fallback selector is
    consulted only when the first finds nothing, and a blank first match
    gives the empty string, not ['N/A']. *)
Theorem name_first_match_wins (soup : Bs4.PageElement) (w : World) :
  (forall el,
     Bs4.find soup "h1"
       [("class", Bs4.MFun (class_has "text-heading-xlarge"))] = Some el ->
     _extract_name soup w = Return (Py.strip (Bs4.get_text el)) w) /\
  (forall el,
     Bs4.find soup "h1"
       [("class", Bs4.MFun (class_has "text-heading-xlarge"))] = None ->
     Bs4.find soup "h1"
       [("class", Bs4.MStr "pv-text-details__left-panel")] = Some el ->
     _extract_name soup w = Return (Py.strip (Bs4.get_text el)) w) /\
  (Bs4.find soup "h1"
     [("class", Bs4.MFun (class_has "text-heading-xlarge"))] = None ->
   Bs4.find soup "h1"
     [("class", Bs4.MStr "pv-text-details__left-panel")] = None ->
   _extract_name soup w = Return "N/A" w).
Proof.
  split; [|split].
  - intros el H1. rewrite _extract_name_rule.
    unfold field_rule, name_selectors. cbn [first_match]. rewrite H1.
    reflexivity.
  - intros el H1 H2. rewrite _extract_name_rule.
    unfold field_rule, name_selectors. cbn [first_match]. rewrite H1, H2.
    reflexivity.
  - intros H1 H2. rewrite _extract_name_rule.
    unfold field_rule, name_selectors. cbn [first_match]. rewrite H1, H2.
    reflexivity.
Qed.

(** *** What scraping leaves alone *)

Lemma fs_kept_ret {A} (a : A) : fs_kept (ret a).
Proof. intros w. reflexivity. Qed.

Lemma fs_kept_raise {A} e : fs_kept (raise (A := A) e).
Proof. intros w. reflexivity. Qed.

Lemma fs_kept_bind {A B} (m : M A) (k : A -> M B) :
  fs_kept m -> (forall a, fs_kept (k a)) -> fs_kept (bind m k).
Proof.
  intros Hm Hk w. unfold bind. specialize (Hm w).
  destruct (m w) as [a w1|e w1|]; auto.
  specialize (Hk a w1). destruct (k a w1); auto; congruence.
Qed.

Lemma fs_kept_try {A} (m : M A) (h : Exception -> M A) :
  fs_kept m -> (forall e, fs_kept (h e)) -> fs_kept (try_except m h).
Proof.
  intros Hm Hh w. unfold try_except. specialize (Hm w).
  destruct (m w) as [a w1|e w1|]; auto.
  specialize (Hh e w1). destruct (h e w1); auto; congruence.
Qed.

Lemma fs_kept_for_each {A S} (l : list A) (body : A -> S -> M S) :
  (forall x acc, fs_kept (body x acc)) ->
  forall acc, fs_kept (for_each l body acc).
Proof.
  intros Hbody. induction l as [|x l IH]; intros acc; cbn [for_each].
  - apply fs_kept_ret.
  - apply fs_kept_bind; [apply Hbody|apply IH].
Qed.

Lemma fs_kept_pure {A} (m : M A) v : pure_comp m v -> fs_kept m.
Proof. intros Hm w. rewrite Hm. reflexivity. Qed.

Lemma fs_kept_print line : fs_kept (print line).
Proof. intros w. reflexivity. Qed.

Lemma fs_kept_random_sleep lo hi : fs_kept (_random_sleep lo hi).
Proof. intros w. reflexivity. Qed.

Lemma fs_kept_random_randint a b : fs_kept (random_randint a b).
Proof. intros w. reflexivity. Qed.

Lemma fs_kept_random_uniform a b : fs_kept (random_uniform a b).
Proof. intros w. reflexivity. Qed.

Lemma fs_kept_time_sleep d : fs_kept (time_sleep d).
Proof. intros w. reflexivity. Qed.

Lemma fs_kept_driver_call {A} attr (op : Driver -> Res A * Driver) :
  fs_kept (driver_call attr op).
Proof.
  intros w. unfold driver_call. destruct (driver (self w)); [|reflexivity].
  destruct (op d) as [[e|a] d']; reflexivity.
Qed.

Lemma fs_kept_py_lt a b : fs_kept (py_lt a b).
Proof. destruct b; [apply fs_kept_raise|apply fs_kept_ret]. Qed.

Lemma fs_kept_py_ge a b : fs_kept (py_ge a b).
Proof. destruct b; [apply fs_kept_raise|apply fs_kept_ret]. Qed.

Lemma fs_kept_out_of_fuel {A} : fs_kept (out_of_fuel (A := A)).
Proof. intros w. exact I. Qed.

Lemma fs_kept_scroll_loop fuel :
  forall pos th, fs_kept (scroll_loop fuel pos th).
Proof.
  induction fuel as [|fuel IH]; intros pos th; cbn [scroll_loop].
  - apply fs_kept_out_of_fuel.
  - apply fs_kept_bind; [apply fs_kept_py_lt|]. intros [|]; [|apply fs_kept_ret].
    apply fs_kept_bind; [apply fs_kept_random_randint|]. intros step.
    apply fs_kept_bind; [apply fs_kept_driver_call|]. intros _.
    apply fs_kept_bind; [apply fs_kept_random_sleep|]. intros _.
    apply fs_kept_bind; [apply fs_kept_driver_call|]. intros th'.
    apply fs_kept_bind; [apply fs_kept_py_ge|]. intros [|];
      [apply fs_kept_ret|apply IH].
Qed.

Lemma fs_kept_scroll_slowly fuel : fs_kept (_scroll_slowly fuel).
Proof.
  unfold _scroll_slowly. apply fs_kept_try.
  - apply fs_kept_bind; [apply fs_kept_driver_call|]. intros th.
    apply fs_kept_bind; [apply fs_kept_driver_call|]. intros vh.
    apply fs_kept_scroll_loop.
  - intros e. apply fs_kept_print.
Qed.

Lemma fs_kept_scrape_profile fuel url : fs_kept (scrape_profile fuel url).
Proof.
  unfold scrape_profile.
  apply fs_kept_bind; [apply fs_kept_print|]. intros _.
  apply fs_kept_try.
  - apply fs_kept_bind; [apply fs_kept_driver_call|]. intros _.
    apply fs_kept_bind; [apply fs_kept_random_sleep|]. intros _.
    apply fs_kept_bind; [apply fs_kept_print|]. intros _.
    apply fs_kept_bind; [apply fs_kept_scroll_slowly|]. intros _.
    apply fs_kept_bind; [apply fs_kept_random_sleep|]. intros _.
    apply fs_kept_bind; [apply fs_kept_driver_call|]. intros src.
    cbv zeta.
    apply fs_kept_bind;
      [eapply fs_kept_pure, _extract_name_rule|]. intros v1.
    apply fs_kept_bind;
      [eapply fs_kept_pure, _extract_headline_rule|]. intros v2.
    apply fs_kept_bind;
      [eapply fs_kept_pure, _extract_location_rule|]. intros v3.
    apply fs_kept_bind;
      [eapply fs_kept_pure, _extract_about_rule|]. intros v4.
    apply fs_kept_bind;
      [eapply fs_kept_pure, _extract_experience_value|]. intros v5.
    apply fs_kept_bind;
      [eapply fs_kept_pure, _extract_education_value|]. intros v6.
    apply fs_kept_bind;
      [eapply fs_kept_pure, _extract_skills_value|]. intros v7.
    apply fs_kept_bind; [apply fs_kept_print|]. intros _.
    apply fs_kept_ret.
  - intros e. apply fs_kept_bind; [apply fs_kept_print|]. intros _.
    apply fs_kept_ret.
Qed.

Lemma fs_kept_batch_step fuel total iu st : fs_kept (batch_step fuel total iu st).
Proof.
  destruct iu as [i url]. destruct st as [[all s] f]. unfold batch_step.
  apply fs_kept_bind; [apply fs_kept_print|]. intros _.
  apply fs_kept_bind; [apply fs_kept_print|]. intros _.
  apply fs_kept_bind; [apply fs_kept_print|]. intros _.
  apply fs_kept_bind; [apply fs_kept_scrape_profile|]. intros r.
  cbv zeta. destruct (dict_mem "error" r).
  all: apply fs_kept_bind; [|intros _; apply fs_kept_ret].
  all: destruct (i <? total); [|apply fs_kept_ret].
  all: apply fs_kept_bind; [apply fs_kept_random_uniform|]; intros delay.
  all: apply fs_kept_bind; [apply fs_kept_print|]; intros _.
  all: apply fs_kept_time_sleep.
Qed.

Lemma fs_kept_batch_loop fuel urls : fs_kept (batch_loop fuel urls).
Proof.
  unfold batch_loop. apply fs_kept_for_each. intros iu st.
  apply fs_kept_batch_step.
Qed.

(** Rules for [only_writes]. *)

Lemma fs_kept_only_writes {A} out (m : M A) : fs_kept m -> only_writes out m.
Proof.
  intros Hm w. specialize (Hm w).
  destruct (m w); auto; rewrite Hm; auto.
Qed.

Lemma only_writes_bind {A B} out (m : M A) (k : A -> M B) :
  only_writes out m -> (forall a, only_writes out (k a)) ->
  only_writes out (bind m k).
Proof.
  intros Hm Hk w. unfold bind. specialize (Hm w).
  destruct (m w) as [a w1|e w1|]; auto.
  specialize (Hk a w1). destruct Hm as [Hd Hm].
  destruct (k a w1) as [b w2|e w2|]; auto; destruct Hk as [Hd' Hk];
    (split; [congruence|]); intros p Hp;
    rewrite Hk by exact Hp; apply Hm, Hp.
Qed.

Lemma only_writes_try {A} out (m : M A) (h : Exception -> M A) :
  only_writes out m -> (forall e, only_writes out (h e)) ->
  only_writes out (try_except m h).
Proof.
  intros Hm Hh w. unfold try_except. specialize (Hm w).
  destruct (m w) as [a w1|e w1|]; auto.
  specialize (Hh e w1). destruct Hm as [Hd Hm].
  destruct (h e w1) as [b w2|e2 w2|]; auto; destruct Hh as [Hd' Hh];
    (split; [congruence|]); intros p Hp;
    rewrite Hh by exact Hp; apply Hm, Hp.
Qed.

Lemma only_writes_for_each {A S} out (l : list A) (body : A -> S -> M S) :
  (forall x acc, only_writes out (body x acc)) ->
  forall acc, only_writes out (for_each l body acc).
Proof.
  intros Hbody. induction l as [|x l IH]; intros acc; cbn [for_each].
  - apply fs_kept_only_writes, fs_kept_ret.
  - apply only_writes_bind; [apply Hbody|apply IH].
Qed.

Lemma only_writes_open_w out : only_writes out (open_w out).
Proof.
  intros w. unfold open_w.
  destruct (dir_searchable (fs w));
    [|split; [reflexivity|intros p Hp; reflexivity]].
  destruct (files (fs w) !! out) as [f|].
  - destruct (writable f); cbn.
    + split; [reflexivity|]. intros p Hp.
      rewrite lookup_insert_ne by congruence. reflexivity.
    + split; [reflexivity|]. intros p Hp. reflexivity.
  - destruct (dir_writable (fs w)) eqn:Hd; cbn.
    + split; [first [reflexivity|exact Hd|symmetry; exact Hd]|]. intros p Hp.
      rewrite lookup_insert_ne by congruence. reflexivity.
    + split; [first [reflexivity|exact Hd|symmetry; exact Hd]|].
      intros p Hp. reflexivity.
Qed.

Lemma only_writes_file_write out data : only_writes out (file_write out data).
Proof.
  intros w. unfold file_write.
  destruct (files (fs w) !! out) as [f|]; cbn.
  - split; [reflexivity|]. intros p Hp.
    rewrite lookup_insert_ne by congruence. reflexivity.
  - split; [reflexivity|]. intros p Hp. reflexivity.
Qed.

Lemma only_writes_save_to_csv profiles out :
  only_writes out (_save_to_csv profiles out).
Proof.
  unfold _save_to_csv. destruct profiles as [|p0 ps].
  { apply fs_kept_only_writes, fs_kept_print. }
  cbv zeta. apply only_writes_try.
  - apply only_writes_bind; [apply only_writes_open_w|]. intros _.
    apply only_writes_bind; [apply only_writes_file_write|]. intros _.
    apply only_writes_bind.
    + apply only_writes_for_each. intros profile acc.
      apply only_writes_file_write.
    + intros _. apply fs_kept_only_writes, fs_kept_print.
  - intros e. apply fs_kept_only_writes, fs_kept_print.
Qed.

Lemma only_writes_true_div out a b : only_writes out (true_div a b).
Proof.
  unfold true_div. destruct (b =? 0);
    apply fs_kept_only_writes; [apply fs_kept_raise|apply fs_kept_ret].
Qed.

(** X5. Scraping never touches the files: [scrape_profile] and the batch
    loop leave the file system exactly as it was, however they end, and
    [scrape_multiple_profiles] changes at most the output file, so the
    saved cookies survive a batch unless the output is written over
    them. *)
Theorem scraping_leaves_files_alone (fuel : nat) (w : World) :
  (forall url,
     match scrape_profile fuel url w with
     | Return _ w' | Raise _ w' => fs w' = fs w
     | OutOfFuel => True
     end) /\
  (forall urls,
     match batch_loop fuel urls w with
     | Return _ w' | Raise _ w' => fs w' = fs w
     | OutOfFuel => True
     end) /\
  (forall urls out,
     match scrape_multiple_profiles fuel urls out w with
     | Return _ w' | Raise _ w' =>
         dir_writable (fs w') = dir_writable (fs w) /\
         forall p, p <> out -> files (fs w') !! p = files (fs w) !! p
     | OutOfFuel => True
     end).
Proof.
  split; [|split].
  - intros url. apply fs_kept_scrape_profile.
  - intros urls. apply fs_kept_batch_loop.
  - intros urls out.
    assert (Hm : only_writes out (scrape_multiple_profiles fuel urls out)).
    { unfold scrape_multiple_profiles.
      apply only_writes_bind;
        [apply fs_kept_only_writes, fs_kept_batch_loop|].
      intros [[all s] f].
      apply only_writes_bind; [apply only_writes_save_to_csv|]. intros _.
      do 6 (apply only_writes_bind;
              [apply fs_kept_only_writes, fs_kept_print|]; intros _).
      apply only_writes_bind; [apply only_writes_true_div|]. intros rate.
      apply only_writes_bind;
        [apply fs_kept_only_writes, fs_kept_print|]. intros _.
      apply fs_kept_only_writes, fs_kept_ret. }
    apply Hm.
Qed.

End MoreProperties2.

Section MoreProperties3.

Context `{P : Platform}.

(** *** The table [_save_to_csv] writes *)

Lemma string_app_assoc (a b c : string) :
  ((a ++ b) ++ c = a ++ (b ++ c))%string.
Proof.
  induction a as [|x a IH]; [reflexivity|].
  change (String x ((a ++ b) ++ c) = String x (a ++ (b ++ c)))%string.
  f_equal. exact IH.
Qed.

Lemma string_app_nil_r (a : string) : (a ++ "" = a)%string.
Proof.
  induction a as [|x a IH]; [reflexivity|].
  change (String x (a ++ "") = String x a)%string. f_equal. exact IH.
Qed.

Lemma concat_cons (x : string) (l : list string) :
  String.concat "" (x :: l) = (x ++ String.concat "" l)%string.
Proof.
  destruct l as [|y l]; [symmetry; apply string_app_nil_r|reflexivity].
Qed.

Lemma substring_length_le (n : nat) (s : string) :
  (String.length (String.substring 0 n s) <= n)%nat.
Proof.
  revert s; induction n as [|n IH]; intros [|c s]; simpl; try lia.
  specialize (IH s). lia.
Qed.

Lemma about_cell_short profile : (String.length (about_cell profile) <= 500)%nat.
Proof.
  unfold about_cell. destruct (Py.truthy _).
  - apply substring_length_le.
  - simpl. lia.
Qed.

Lemma file_write_appends p data w f :
  files (fs w) !! p = Some f ->
  exists w',
    file_write p data w = Return tt w' /\
    files (fs w') !! p
    = Some (mkFile (content f ++ data) (readable f) (writable f)) /\
    self w' = self w.
Proof.
  intros Hf. unfold file_write. rewrite Hf. eexists. split; [reflexivity|].
  cbn. rewrite lookup_insert_eq. auto.
Qed.

Lemma write_rows_content {A} (line : A -> string) p (rows : list A) :
  forall w f,
    files (fs w) !! p = Some f ->
    exists w',
      for_each rows (fun row _ => file_write p (line row)) tt w = Return tt w' /\
      files (fs w') !! p
      = Some (mkFile (content f ++ String.concat "" (line <$> rows))
                (readable f) (writable f)) /\
      self w' = self w.
Proof.
  induction rows as [|row rows IH]; intros w f Hf.
  - exists w. split; [reflexivity|]. split; [|reflexivity].
    rewrite Hf. change (String.concat "" (line <$> [])) with "".
    rewrite string_app_nil_r. destruct f; reflexivity.
  - cbn [for_each].
    destruct (file_write_appends p (line row) w f Hf) as (w1 & Hw & Hf1 & Hs1).
    unfold bind. rewrite Hw.
    destruct (IH w1 _ Hf1) as (w2 & Hrest & Hf2 & Hs2).
    exists w2. split; [exact Hrest|]. split; [|congruence].
    rewrite Hf2. cbn [content readable writable].
    rewrite string_app_assoc.
    change (line <$> row :: rows) with (line row :: (line <$> rows)).
    rewrite concat_cons. reflexivity.
Qed.

(** X6. [_save_to_csv] writes nothing and raises nothing when there is
    nothing to save or the file cannot be opened: with an empty list, or
    with a file (or directory) that is not writable or cannot be reached,
    it returns and the file system is as before. *)
Theorem csv_nothing_written (profiles : list Dict) (filename : string)
  (w : World) :
  profiles = [] \/ creatable (fs w) filename = false ->
  exists w',
    _save_to_csv profiles filename w = Return tt w' /\
    fs w' = fs w /\ self w' = self w.
Proof.
  intros [->|Hno].
  - eexists. split; [reflexivity|]. split; reflexivity.
  - destruct profiles as [|p0 ps].
    { eexists. split; [reflexivity|]. split; reflexivity. }
    unfold creatable in Hno.
    unfold _save_to_csv, try_except, bind, open_w.
    destruct (dir_searchable (fs w));
      [|eexists; split; [reflexivity|]; split; reflexivity].
    cbn [andb] in Hno.
    destruct (files (fs w) !! filename) as [f|].
    + rewrite Hno. eexists. split; [reflexivity|]. split; reflexivity.
    + rewrite Hno. eexists. split; [reflexivity|]. split; reflexivity.
Qed.

Lemma scraped_table_ready w url r : scraped w url r -> table_ready r = true.
Proof.
  intros [(e & -> & _)|(src & _ & _ & ->)]; reflexivity.
Qed.

(** X7. When the list is not empty, its records hold strings under the
    keys of the table (or lack the key) and the file can be opened,
    [_save_to_csv] replaces whatever the file held by the header line
    followed by one line per profile, in the order of the list; the
    [about] cell of every line has at most 500 characters.  The records
    [scrape_profile] returns are of that kind. *)
Theorem csv_table (profiles : list Dict) (filename : string) (w : World) :
  profiles <> [] ->
  Forall (fun profile => table_ready profile = true) profiles ->
  creatable (fs w) filename = true ->
  exists w',
    _save_to_csv profiles filename w = Return tt w' /\
    stored (fs w') filename
    = Some (table_header ++ String.concat "" (table_row <$> profiles))%string /\
    Forall (fun p => (String.length (about_cell p) <= 500)%nat) profiles.
Proof.
  intros Hne _ Hok.
  assert (Hshort :
    Forall (fun p => (String.length (about_cell p) <= 500)%nat) profiles).
  { apply List.Forall_forall. intros p _. apply about_cell_short. }
  destruct profiles as [|p0 ps]; [contradiction|].
  set (profiles := p0 :: ps) in *.
  assert (Hopen : exists w1 r,
            open_w filename w = Return tt w1 /\
            files (fs w1) !! filename = Some (mkFile "" r true) /\
            self w1 = self w).
  { unfold open_w, creatable in *.
    apply andb_prop in Hok as [Hx Hok]. rewrite Hx.
    destruct (files (fs w) !! filename) as [f|].
    - rewrite Hok. eexists _, _. split; [reflexivity|]. cbn.
      rewrite lookup_insert_eq. auto.
    - rewrite Hok. eexists _, _. split; [reflexivity|]. cbn.
      rewrite lookup_insert_eq. auto. }
  destruct Hopen as (w1 & r & Hopen & Hf1 & Hs1).
  destruct (file_write_appends filename table_header w1 _ Hf1)
    as (w2 & Hhead & Hf2 & Hs2).
  destruct (write_rows_content table_row filename profiles w2 _ Hf2)
    as (w3 & Hrows & Hf3 & Hs3).
  eexists. split.
  - unfold _save_to_csv. subst profiles. cbv zeta.
    unfold try_except. unfold bind at 1. rewrite Hopen.
    unfold bind at 1. fold table_header. rewrite Hhead.
    unfold bind at 1.
    change (for_each (p0 :: ps) _ tt w2)
      with (for_each (p0 :: ps) (fun row _ => file_write filename (table_row row))
              tt w2).
    rewrite Hrows. cbn [print]. reflexivity.
  - split; [|exact Hshort].
    unfold stored. cbn [fs]. rewrite Hf3. reflexivity.
Qed.

(** *** The session file *)

Lemma fs_kept_add_cookies cookies :
  fs_kept
    (for_each cookies
       (fun cookie (_ : unit) =>
          try_except (driver_call "add_cookie" (wd_add_cookie cookie))
            (fun e => ret tt))
       tt).
Proof.
  apply fs_kept_for_each. intros c acc.
  apply fs_kept_try; [apply fs_kept_driver_call|intros e; apply fs_kept_ret].
Qed.

Lemma fs_kept_load_cookies : fs_kept load_cookies.
Proof.
  unfold load_cookies.
  apply fs_kept_bind; [intros w; reflexivity|]. intros s.
  cbv zeta. apply fs_kept_bind.
  { intros w. unfold path_exists. destruct (dir_searchable (fs w)); reflexivity. }
  intros [|]; [|apply fs_kept_ret].
  apply fs_kept_try.
  - apply fs_kept_bind; [apply fs_kept_driver_call|]. intros _.
    apply fs_kept_bind.
    { intros w. unfold open_r. destruct (dir_searchable (fs w)); [|reflexivity].
      destruct (files (fs w) !! cookies_file s) as [f|];
        [destruct (readable f)|]; reflexivity. }
    intros data. apply fs_kept_bind.
    { unfold pickle_load. destruct (pickle_loads data);
        [apply fs_kept_ret|apply fs_kept_raise]. }
    intros cookies. apply fs_kept_bind; [apply fs_kept_add_cookies|].
    intros _. apply fs_kept_bind; [apply fs_kept_print|]. intros _.
    apply fs_kept_ret.
  - intros e. apply fs_kept_bind; [apply fs_kept_print|]. intros _.
    apply fs_kept_ret.
Qed.

Lemma load_cookies_false_unless_loadable w :
  dir_searchable (fs w) = true ->
  ~ loadable w -> exists w', load_cookies w = Return false w'.
Proof.
  intros Hx Hno.
  unfold load_cookies, bind, get_self, path_exists. unfold try_except at 1.
  rewrite Hx.
  destruct (files (fs w) !! cookies_file (self w)) as [f|] eqn:Hf.
  2:{ rewrite bool_decide_eq_false_2; [eauto|]. intros [x Hsome].
      discriminate. }
  rewrite bool_decide_eq_true_2 by eauto.
  unfold driver_call at 1.
  destruct (driver (self w)) as [d|] eqn:Hd; [|cbn; eauto].
  destruct (wd_get "https://www.linkedin.com" d) as [[e|[]] d1] eqn:Hget;
    [cbn; eauto|].
  unfold open_r. cbn [fs set_driver set_fs]. rewrite Hx, Hf.
  destruct (readable f) eqn:Hr; [|cbn; eauto].
  unfold pickle_load.
  destruct (pickle_loads (content f)) as [cs|] eqn:Hp; [|cbn; eauto].
  exfalso. apply Hno. exists f, d, cs. rewrite Hget. auto 10.
Qed.

Lemma loadable_decidable w : loadable w \/ ~ loadable w.
Proof.
  destruct (dir_searchable (fs w)) eqn:Hx.
  2:{ right. intros (f & d & cs & Hx' & _). congruence. }
  destruct (files (fs w) !! cookies_file (self w)) as [f|] eqn:Hf.
  2:{ right. intros (f & d & cs & _ & Hf' & _). congruence. }
  destruct (readable f) eqn:Hr.
  2:{ right. intros (f' & d & cs & _ & Hf' & Hr' & _). congruence. }
  destruct (driver (self w)) as [d|] eqn:Hd.
  2:{ right. intros (f' & d & cs & _ & _ & _ & Hd' & _). congruence. }
  destruct (wd_get "https://www.linkedin.com" d) as [[e|[]] d1] eqn:Hg.
  { right. intros (f' & d' & cs & _ & _ & _ & Hd' & Hg' & _).
    assert (d' = d) by congruence. subst d'. rewrite Hg in Hg'.
    discriminate. }
  destruct (pickle_loads (content f)) as [cs|] eqn:Hp.
  2:{ right. intros (f' & d' & cs & _ & Hf' & _ & _ & _ & Hp').
      assert (f' = f) by congruence. subst f'. congruence. }
  left. exists f, d, cs. rewrite Hg. auto 10.
Qed.

(** X8. [load_cookies] either raises at once or returns a boolean.  It
    raises, with the [PermissionError] of the [stat] in [Path.exists],
    exactly when the directory of the cookie file may not be searched,
    and then nothing has happened: no line printed, the browser not
    touched.  Otherwise it returns, the file system is left as it was,
    and the value says whether the file could be loaded, not whether the
    browser took the cookies: [True] exactly when the cookie file is
    there and readable, the browser reaches the site and the file
    unpickles, and [False] otherwise. *)
Theorem load_cookies_result (w : World) :
  match load_cookies w with
  | Return b w' =>
      dir_searchable (fs w) = true /\ fs w' = fs w /\
      (b = true <-> loadable w)
  | Raise e w' =>
      dir_searchable (fs w) = false /\
      e = permission_denied (cookies_file (self w)) /\ w' = w
  | OutOfFuel => False
  end.
Proof.
  destruct (dir_searchable (fs w)) eqn:Hx.
  2:{ rewrite (load_cookies_stat_error w Hx). auto. }
  destruct (load_cookies_total w Hx) as (b & w' & Hrun).
  pose proof (fs_kept_load_cookies w) as Hk. rewrite Hrun in *.
  split; [reflexivity|]. split; [exact Hk|]. split.
  - intros ->. destruct (loadable_decidable w) as [Hyes|Hno]; [exact Hyes|].
    destruct (load_cookies_false_unless_loadable w Hx Hno) as (w2 & Hrun2).
    congruence.
  - intros (f & d & cs & _ & Hf & Hr & Hd & Hg & Hp).
    destruct (load_cookies_restores w f cs d Hx Hf Hr Hp Hd Hg)
      as (w2 & Hrun2 & _).
    congruence.
Qed.

(** X9. [save_cookies] opens the file before it asks the browser for the
    cookies, so a save that fails at that point loses the session saved
    before: when the file can be reached and is writable but there is no
    driver or [get_cookies] raises, [save_cookies] still returns, the
    file is left empty, and (an empty file being no pickle) the next
    [load_cookies] returns [False]. *)
Theorem failed_save_empties_file (w : World) (f : File) :
  dir_searchable (fs w) = true ->
  files (fs w) !! cookies_file (self w) = Some f ->
  writable f = true ->
  cookies_unavailable w ->
  exists w',
    save_cookies w = Return tt w' /\
    stored (fs w') (cookies_file (self w)) = Some "" /\
    (pickle_loads "" = None ->
     exists w'', load_cookies w' = Return false w'').
Proof.
  intros Hx Hf Hw Hun.
  assert (Hsave : exists w',
            save_cookies w = Return tt w' /\
            files (fs w') !! cookies_file (self w)
            = Some (mkFile "" (readable f) true) /\
            cookies_file (self w') = cookies_file (self w) /\
            dir_searchable (fs w') = true).
  { unfold save_cookies, bind, get_self, try_except, open_w.
    rewrite Hx, Hf, Hw. unfold driver_call. cbn [self set_fs].
    destruct Hun as [Hd|(d & e & Hd & He)]; rewrite Hd.
    - eexists. split; [reflexivity|]. cbn. rewrite lookup_insert_eq. auto.
    - destruct (wd_get_cookies d) as [r d1]. simpl in He. subst r.
      eexists. split; [reflexivity|]. cbn. rewrite lookup_insert_eq. auto. }
  destruct Hsave as (w' & Hrun & Hf' & Hc & Hx').
  exists w'. split; [exact Hrun|]. split.
  - unfold stored. rewrite Hf'. reflexivity.
  - intros Hempty.
    apply (load_cookies_corrupt w' (mkFile "" (readable f) true)).
    + exact Hx'.
    + rewrite Hc. exact Hf'.
    + right. exact Hempty.
Qed.

End MoreProperties3.

Section MoreProperties4.

Context `{P : Platform}.

(** *** A page that never stops growing *)

Lemma scroll_loop_endless (Inv : Driver -> Z -> Prop) :
  endless_feed Inv ->
  forall fuel pos z w d,
    driver (self w) = Some d -> Inv d pos -> pos < z ->
    scroll_loop fuel pos (JsInt z) w = OutOfFuel.
Proof.
  intros Hfeed fuel; induction fuel as [|fuel IH]; intros pos z w d Hd Hinv Hlt;
    [reflexivity|].
  cbn [scroll_loop]. unfold bind at 1. cbn [py_lt ret].
  apply Z.ltb_lt in Hlt. rewrite Hlt.
  destruct (returns_elim _ _ _ (random_randint_post 200 400 w ltac:(lia)))
    as (step & w1 & Hstep & Hrange & Hs1 & _).
  unfold bind at 1. rewrite Hstep. cbv zeta.
  destruct (Hfeed d pos (pos + step) Hinv ltac:(lia))
    as (v & d1 & z' & d2 & Hscroll & Hmeasure & Hz' & Hinv').
  unfold bind at 1. unfold driver_call at 1. rewrite Hs1, Hd.
  fold (scroll_script (pos + step)). rewrite Hscroll.
  unfold bind at 1. cbn [_random_sleep random_uniform next_draw time_sleep bind
    ret].
  unfold bind at 1. unfold driver_call at 1.
  cbn [self set_driver driver].
  fold height_script. rewrite Hmeasure.
  unfold bind at 1. cbn [py_ge ret].
  assert (Hge : (pos + step >=? z') = false).
  { rewrite Z.geb_leb. apply Z.leb_gt. lia. }
  rewrite Hge.
  eapply IH; [|exact Hinv'|exact Hz']. reflexivity.
Qed.

(** X10. The scroll loop has no cap on its turns: on a page that grows
    as it is scrolled, so that every height measured is beyond the
    position just reached, the loop uses up any amount of fuel, and
    [_scroll_slowly] with it; the method does not return. *)
Theorem endless_feed_never_ends (Inv : Driver -> Z -> Prop) :
  endless_feed Inv ->
  (forall fuel pos z w d,
     driver (self w) = Some d -> Inv d pos -> pos < z ->
     scroll_loop fuel pos (JsInt z) w = OutOfFuel) /\
  (forall fuel w d0 z0 d1 v d2,
     driver (self w) = Some d0 ->
     wd_execute_script height_script d0 = (inr (JsInt z0), d1) ->
     wd_execute_script "return window.innerHeight" d1 = (inr v, d2) ->
     Inv d2 0 -> 0 < z0 ->
     _scroll_slowly fuel w = OutOfFuel).
Proof.
  intros Hfeed. split; [apply scroll_loop_endless, Hfeed|].
  intros fuel w d0 z0 d1 v d2 Hd Hh Hv Hinv Hz.
  unfold _scroll_slowly, try_except.
  unfold bind at 1. unfold driver_call at 1. rewrite Hd.
  fold height_script. rewrite Hh.
  unfold bind at 1. unfold driver_call at 1. cbn [self set_driver driver].
  rewrite Hv. cbv zeta.
  rewrite (scroll_loop_endless Inv Hfeed fuel 0 z0 _ d2); auto.
Qed.

(** *** Only the scroll loop can hang *)

Lemma fueled_ret {A} (a : A) : fueled (ret a).
Proof. intros w. discriminate. Qed.

Lemma fueled_raise {A} e : fueled (raise (A := A) e).
Proof. intros w. discriminate. Qed.

Lemma fueled_bind {A B} (m : M A) (k : A -> M B) :
  fueled m -> (forall a, fueled (k a)) -> fueled (bind m k).
Proof.
  intros Hm Hk w. unfold bind. specialize (Hm w).
  destruct (m w) as [a w1|e w1|]; [apply Hk|discriminate|contradiction].
Qed.

Lemma fueled_try {A} (m : M A) (h : Exception -> M A) :
  fueled m -> (forall e, fueled (h e)) -> fueled (try_except m h).
Proof.
  intros Hm Hh w. unfold try_except. specialize (Hm w).
  destruct (m w) as [a w1|e w1|]; [discriminate|apply Hh|contradiction].
Qed.

Lemma fueled_for_each {A S} (l : list A) (body : A -> S -> M S) :
  (forall x acc, fueled (body x acc)) ->
  forall acc, fueled (for_each l body acc).
Proof.
  intros Hbody. induction l as [|x l IH]; intros acc; cbn [for_each].
  - apply fueled_ret.
  - apply fueled_bind; [apply Hbody|apply IH].
Qed.

Lemma fueled_pure {A} (m : M A) v : pure_comp m v -> fueled m.
Proof. intros Hm w. rewrite Hm. discriminate. Qed.

Lemma fueled_print line : fueled (print line).
Proof. intros w. discriminate. Qed.

Lemma fueled_random_sleep lo hi : fueled (_random_sleep lo hi).
Proof. intros w. discriminate. Qed.

Lemma fueled_random_uniform lo hi : fueled (random_uniform lo hi).
Proof. intros w. discriminate. Qed.

Lemma fueled_time_sleep d : fueled (time_sleep d).
Proof. intros w. discriminate. Qed.

Lemma fueled_driver_call {A} attr (op : Driver -> Res A * Driver) :
  fueled (driver_call attr op).
Proof.
  intros w. unfold driver_call. destruct (driver (self w)); [|discriminate].
  destruct (op d) as [[e|a] d']; discriminate.
Qed.

Lemma fueled_scrape_profile fuel url :
  fueled (_scroll_slowly fuel) -> fueled (scrape_profile fuel url).
Proof.
  intros Hscroll. unfold scrape_profile.
  apply fueled_bind; [apply fueled_print|]. intros _.
  apply fueled_try.
  - apply fueled_bind; [apply fueled_driver_call|]. intros _.
    apply fueled_bind; [apply fueled_random_sleep|]. intros _.
    apply fueled_bind; [apply fueled_print|]. intros _.
    apply fueled_bind; [exact Hscroll|]. intros _.
    apply fueled_bind; [apply fueled_random_sleep|]. intros _.
    apply fueled_bind; [apply fueled_driver_call|]. intros src.
    cbv zeta.
    apply fueled_bind; [eapply fueled_pure, _extract_name_rule|]. intros v1.
    apply fueled_bind; [eapply fueled_pure, _extract_headline_rule|].
    intros v2.
    apply fueled_bind; [eapply fueled_pure, _extract_location_rule|].
    intros v3.
    apply fueled_bind; [eapply fueled_pure, _extract_about_rule|]. intros v4.
    apply fueled_bind; [eapply fueled_pure, _extract_experience_value|].
    intros v5.
    apply fueled_bind; [eapply fueled_pure, _extract_education_value|].
    intros v6.
    apply fueled_bind; [eapply fueled_pure, _extract_skills_value|].
    intros v7.
    apply fueled_bind; [apply fueled_print|]. intros _.
    apply fueled_ret.
  - intros e. apply fueled_bind; [apply fueled_print|]. intros _.
    apply fueled_ret.
Qed.

Lemma scroll_slowly_scripts_fail fuel :
  scripts_fail -> fueled (_scroll_slowly fuel).
Proof.
  intros Hfail w. unfold _scroll_slowly, try_except.
  unfold bind at 1. unfold driver_call at 1.
  destruct (driver (self w)) as [d|]; [|discriminate].
  destruct (Hfail "return document.body.scrollHeight" d) as [e He].
  destruct (wd_execute_script "return document.body.scrollHeight" d)
    as [r d1]. simpl in He. subst r. discriminate.
Qed.

(** X11. A failure while scrolling does not fail the profile: when every
    script the browser is asked to run raises, [_scroll_slowly] catches
    the error without a single turn of its loop, and [scrape_profile],
    with any fuel, still returns the full record of a page that loads
    and whose source can be read. *)
Theorem scroll_errors_swallowed (fuel : nat) (url : string) (w : World) :
  scripts_fail ->
  driver_some w -> always_loads url -> source_readable ->
  exists src w',
    scrape_profile fuel url w
    = Return (profile_record url (BeautifulSoup src)) w' /\
    served src.
Proof.
  intros Hfail Hd Hload Hsrc.
  pose proof (fueled_scrape_profile fuel url (scroll_slowly_scripts_fail fuel Hfail) w)
    as Hfuel.
  destruct (scrape_profile fuel url w) as [r w'|e w'|] eqn:Hrun;
    [|exfalso; eapply scrape_profile_never_raises; exact Hrun|contradiction].
  apply scrape_profile_scraped in Hrun as Hs.
  destruct Hs as [_ [(e & -> & Hwhy)|(src & _ & Hserved & ->)]].
  - exfalso. destruct Hwhy as [Hno|[[d Hget]|[d Hps]]].
    + apply Hno, Hd.
    + rewrite Hload in Hget. discriminate.
    + destruct (Hsrc d) as [src Hok]. rewrite Hok in Hps. discriminate.
  - exists src, w'. split; [reflexivity|exact Hserved].
Qed.

(** *** Pacing between profiles *)

Lemma uniform_5_10 (r : Z) :
  let delay := (5 + (10 - 5) * (r mod 9007199254740992 # 9007199254740992))%Q in
  (5 <= delay)%Q /\ (delay <= 10)%Q.
Proof.
  pose proof (Z.mod_pos_bound r 9007199254740992 ltac:(lia)) as Hm.
  cbv zeta. unfold Qle. cbn. lia.
Qed.

Lemma enumerate_spec {A} (l : list A) :
  forall start,
    List.map fst (enumerate start l)
    = List.map (fun k => start + Z.of_nat k) (seq 0 (List.length l)).
Proof.
  induction l as [|x l IH]; intros start; [reflexivity|].
  cbn [enumerate List.map List.length seq fst]. f_equal.
  - lia.
  - rewrite IH, <- seq_shift, List.map_map.
    apply List.map_ext. intros k. lia.
Qed.

(** X12. The batch waits between profiles and not after the last one:
    in a turn whose index is below the total, once [scrape_profile] has
    returned, one draw is taken, the wait is printed and the clock moves
    on by a delay of at least 5 and at most 10 seconds; in the turn of
    the last index nothing more happens.  The indices run from 1 to the
    number of URLs, so only the last profile has no wait after it. *)
Theorem pacing_between_profiles (fuel : nat) (total i : Z) (url : string)
  (st : BatchState) (w : World) (r : Dict) (w4 : World) :
  scrape_profile fuel url (announced total i w) = Return r w4 ->
  (i < total ->
   exists delay,
     (5 <= delay)%Q /\ (delay <= 10)%Q /\
     batch_step fuel total (i, url) st w
     = Return (tally st r) (waited delay w4)) /\
  (total <= i ->
   batch_step fuel total (i, url) st w = Return (tally st r) w4) /\
  (forall urls : list string,
     List.map fst (enumerate 1 urls)
     = List.map (fun k => 1 + Z.of_nat k) (seq 0 (List.length urls))).
Proof.
  intros Hrun.
  assert (Hstep : batch_step fuel total (i, url) st w
                  = (if i <? total
                     then Return (tally st r)
                            (waited (5 + (10 - 5) *
                               (rng w4 (rng_pos w4) mod 9007199254740992
                                # 9007199254740992))%Q w4)
                     else Return (tally st r) w4)).
  { destruct st as [[all s] f]. unfold batch_step.
    unfold bind at 1 2 3. cbn [print].
    set (w3 := mkWorld _ _ _ _ _ _).
    change w3 with (announced total i w). clear w3.
    unfold bind at 1. rewrite Hrun. cbv zeta. unfold tally.
    destruct (dict_mem "error" r); destruct (i <? total); reflexivity. }
  split; [|split].
  - intros Hlt. apply Z.ltb_lt in Hlt. rewrite Hlt in Hstep.
    eexists. split; [|split; [|exact Hstep]]; apply uniform_5_10.
  - intros Hge. apply Z.ltb_ge in Hge. rewrite Hge in Hstep. exact Hstep.
  - intros urls. apply enumerate_spec.
Qed.

(** *** The user agent *)

(** X13. [_get_random_user_agent] always returns one of the six strings
    of its list (never an empty or foreign one), whatever the generator
    draws, and every one of the six can come out. *)
Theorem user_agent_from_pool :
  (forall w,
     exists ua w',
       _get_random_user_agent w = Return ua w' /\
       In ua user_agents /\ fs w' = fs w /\ self w' = self w) /\
  (forall ua,
     In ua user_agents ->
     forall w, exists draw w',
       _get_random_user_agent
         (mkWorld (self w) (fs w) (fun _ => draw) (rng_pos w) (clock w)
            (stdout w))
       = Return ua w').
Proof.
  split.
  - intros w. eexists _, _. split; [reflexivity|]. split; [|split; reflexivity].
    apply nth_In. change (List.length user_agents) with 6%nat.
    pose proof (Z.mod_pos_bound (rng w (rng_pos w)) 6 ltac:(lia)). lia.
  - intros ua Hin w.
    apply In_nth with (d := "") in Hin as (k & Hk & Hnth).
    exists (Z.of_nat k). eexists. unfold _get_random_user_agent, random_choice,
      bind, next_draw, ret. cbn [rng rng_pos].
    change (List.length user_agents) with 6%nat in *.
    rewrite Z.mod_small by lia. rewrite Nat2Z.id, Hnth. reflexivity.
Qed.

End MoreProperties4.

Section MoreProperties5.

Context `{P : Platform}.

(** X14. For every list of URLs that is not empty,
    [scrape_multiple_profiles] returns exactly one record per URL, in the
    order of the input and with that URL under [url]; nothing is skipped
    or merged, so a URL given twice is scraped twice. *)
Theorem batch_records_in_order (H : Z) (fuel : nat) (urls : list string)
  (out : string) (w : World) :
  heights_bounded H -> (enough_fuel H <= fuel)%nat -> urls <> [] ->
  exists recs w',
    scrape_multiple_profiles fuel urls out w = Return recs w' /\
    List.length recs = List.length urls /\
    List.map record_url recs = List.map (fun u => Some (PyStr u)) urls.
Proof.
  intros Hb Hfuel Hne.
  destruct (scrape_multiple_profiles_returns H fuel urls out w Hb Hfuel Hne)
    as (recs & w1 & w' & _ & Hrun & Hrecs & _).
  exists recs, w'. split; [exact Hrun|].
  assert (Hatt : Forall2 attributed urls recs).
  { eapply Forall2_impl; [exact Hrecs|].
    intros u r. apply scraped_after_attributed. }
  split; [symmetry; eapply Forall2_length, Hatt|].
  clear -Hatt. induction Hatt as [|u r urls recs [Hu _] _ IH]; simpl.
  - reflexivity.
  - unfold record_url at 1. rewrite Hu, IH. reflexivity.
Qed.

End MoreProperties5.

(** * The properties on the small platform *)

#[local] Existing Instance Toy.platform.

Lemma list_field_caps_example :
  exists experience education skills,
    _extract_experience Toy.jane_soup Toy.world0
    = Return experience Toy.world0 /\
    _extract_education Toy.jane_soup Toy.world0
    = Return education Toy.world0 /\
    _extract_skills Toy.jane_soup Toy.world0 = Return skills Toy.world0 /\
    (List.length experience <= 5)%nat /\
    (List.length education <= 3)%nat /\
    (List.length skills <= 10)%nat.
Proof. apply list_field_caps. Qed.

Lemma record_shape_invariant_witness :
  exists r w',
    scrape_profile 10 Toy.jane_url Toy.world0 = Return r w' /\
    record_shape "N/A" r.
Proof.
  apply (proj2 (proj2 record_shape_invariant) 900 10%nat).
  - intros d. vm_compute. discriminate.
  - vm_compute. lia.
Defined.

Lemma core_field_rule_witness :
  _extract_name Toy.jane_soup Toy.world0 = Return "Jane Doe" Toy.world0 /\
  _extract_headline Toy.jane_soup Toy.world0 = Return "N/A" Toy.world0 /\
  exists pre post,
    Bs4.descendants Toy.jane_soup
    = pre ++ Bs4.Tag "h1" [("class", Bs4.Multi ["text-heading-xlarge"])]
               [Bs4.NavigableString " Jane Doe "] :: post /\
    Forall (fun y => Bs4.search_tag "h1"
              [("class", Bs4.MFun (class_has "text-heading-xlarge"))] y = false)
      pre.
Proof.
  destruct (core_field_rule Toy.jane_soup Toy.world0)
    as (_ & _ & _ & _ & _ & Hfind & Hname & Hheadline).
  split; [exact Hname|]. split; [exact Hheadline|].
  destruct (Hfind Toy.jane_soup "h1"
              [("class", Bs4.MFun (class_has "text-heading-xlarge"))]
              _ eq_refl) as (pre & post & Hsplit & _ & Hpre).
  exists pre, post. split; [exact Hsplit|exact Hpre].
Defined.

Lemma scroll_terminates_witness :
  heights_fixed 900 /\
  exists w', _scroll_slowly 6 Toy.world0 = Return tt w'.
Proof.
  assert (Hfix : heights_fixed (P := Toy.platform) 900).
  { intros d. reflexivity. }
  split; [exact Hfix|].
  apply (proj2 (proj2 (proj2 (scroll_terminates 900 Hfix)))).
  vm_compute. lia.
Defined.

Lemma error_record_keeps_url_witness :
  exists w',
    scrape_profile 10 Toy.nobody_url Toy.world0
    = Return [("url", PyStr Toy.nobody_url);
              ("error", PyStr ("timeout loading " ++ Toy.nobody_url))] w'.
Proof.
  apply (proj2 error_record_keeps_url 10%nat Toy.nobody_url Toy.world0
           (Toy.mkBrowser None [])
           (TimeoutException ("timeout loading " ++ Toy.nobody_url))).
  - reflexivity.
  - reflexivity.
Defined.


Lemma load_cookies_raises_before_try_witness :
  load_cookies Toy.world_locked
  = Raise (permission_denied "linkedin_cookies.pkl") Toy.world_locked /\
  (exists w', save_cookies Toy.world_locked = Return tt w') /\
  (exists w',
     save_cookies Toy.world2 = Return tt w' /\
     fs w' = fs Toy.world2 /\ self w' = self Toy.world2).
Proof.
  split; [|split].
  - apply (proj1 (load_cookies_raises_before_try Toy.world_locked)).
    reflexivity.
  - apply (proj1 (proj2 (load_cookies_raises_before_try Toy.world_locked))).
  - apply (proj2 (proj2 (load_cookies_raises_before_try Toy.world2))).
    reflexivity.
Defined.

Lemma cookie_round_trip_witness :
  exists w1,
    save_cookies Toy.world1 = Return tt w1 /\
    stored (fs w1) "linkedin_cookies.pkl" = Some (Toy.dumps Toy.cookies0) /\
    (stored (fs w1) "linkedin_cookies.pkl" ≫= Toy.loads) = Some Toy.cookies0 /\
    forall w2 d2,
      fs w2 = fs w1 ->
      cookies_file (self w2) = "linkedin_cookies.pkl" ->
      driver (self w2) = Some d2 ->
      fst (Toy.get "https://www.linkedin.com" d2) = inr tt ->
      exists w3,
        load_cookies w2 = Return true w3 /\
        driver (self w3)
        = Some (inject Toy.cookies0
                  (snd (Toy.get "https://www.linkedin.com" d2))).
Proof.
  apply (cookie_round_trip Toy.world1
           (Toy.mkBrowser
              (Some (Toy.mkPage "https://www.linkedin.com" Toy.bare_html))
              Toy.cookies0)
           Toy.cookies0).
  - reflexivity.
  - reflexivity.
  - reflexivity.
  - vm_compute. reflexivity.
Defined.

(** C5 as stated fails: on the snapshot with the name node and no
    headline node, no headline selector matches and the extractor
    returns ["N/A"], not ["unknown"]; so does the record of the page. *)
Lemma core_field_unknown_counterexample :
  first_match headline_selectors Toy.jane_soup = None /\
  _extract_headline Toy.jane_soup Toy.world0 = Return "N/A" Toy.world0 /\
  _extract_headline Toy.jane_soup Toy.world0
  <> Return (field_rule "unknown" headline_selectors Toy.jane_soup) Toy.world0 /\
  exists r w',
    scrape_profile 10 Toy.jane_url Toy.world0 = Return r w' /\
    dict_get "name" r = Some (PyStr "Jane Doe") /\
    dict_get "headline" r = Some (PyStr "N/A") /\
    dict_get "headline" r <> Some (PyStr "unknown").
Proof.
  split; [reflexivity|]. split; [reflexivity|]. split.
  - vm_compute. discriminate.
  - eexists _, _. vm_compute. repeat split; discriminate.
Qed.

(** C3 as stated fails: the page of [Toy.john_url] has no node at all for
    the core fields, its record holds ["N/A"] under [name], which is
    neither the text of a node of a page nor ["unknown"], and the record
    carries no [error]. *)
Lemma record_shape_unknown_counterexample :
  ~ (forall fuel url w r w',
       scrape_profile fuel url w = Return r w' -> record_shape "unknown" r).
Proof.
  intros Hclaim.
  destruct (scrape_profile 10 Toy.john_url Toy.world0) as [r w'| |] eqn:Hrun;
    [|vm_compute in Hrun; discriminate..].
  pose proof (Hclaim _ _ _ _ _ Hrun) as Hshape.
  vm_compute in Hrun. injection Hrun as <- _.
  destruct Hshape as [[(src & _ & Hcore & _) _]|[[Herr _] _]].
  - destruct (Hcore "name") as (v & Hv & s & -> & Hs); [left; reflexivity|].
    injection Hv as <-.
    destruct Hs as [Hs|(el & Hel & Htext)]; [discriminate|].
    change (BeautifulSoup src) with (Toy.parse src) in Hel.
    unfold Toy.parse in Hel.
    destruct (String.eqb src Toy.jane_html); simpl in Hel;
      repeat (destruct Hel as [<-|Hel]; [vm_compute in Htext; discriminate|]);
      contradiction.
  - vm_compute in Herr. discriminate.
Qed.

(** * The further properties on the small platform *)

Lemma scraping_without_driver_witness :
  (exists w',
     scrape_profile 10 Toy.jane_url Toy.world_cold
     = Return (no_driver_record Toy.jane_url) w' /\
     fs w' = fs Toy.world_cold) /\
  (exists w',
     batch_loop 10 Toy.batch0 Toy.world_cold
     = Return (List.map no_driver_record Toy.batch0, 0, 3) w').
Proof.
  destruct (scraping_without_driver 10 Toy.world_cold eq_refl) as [H1 H2].
  split; [apply H1|apply (H2 Toy.batch0)].
Defined.

Lemma batch_counters_witness :
  exists recs successful failed w',
    batch_loop 10 Toy.batch0 Toy.world0 = Return (recs, successful, failed) w' /\
    List.length recs = List.length Toy.batch0 /\
    successful = count_clean recs /\
    failed = count_errors recs /\
    successful + failed = Z.of_nat (List.length Toy.batch0) /\
    0 <= successful /\ 0 <= failed.
Proof.
  apply (batch_counters 900 10 Toy.batch0 Toy.world0).
  - intros d. vm_compute. discriminate.
  - vm_compute. lia.
Defined.

Lemma name_first_match_wins_witness :
  _extract_name Samples.blank_name_soup Toy.world0 = Return "" Toy.world0 /\
  _extract_name Samples.fallback_name_soup Toy.world0
  = Return "Jane Doe" Toy.world0 /\
  _extract_name Toy.bare_soup Toy.world0 = Return "N/A" Toy.world0.
Proof.
  split; [|split].
  - apply (proj1 (name_first_match_wins Samples.blank_name_soup Toy.world0)
             (Bs4.Tag "h1" [("class", Bs4.Multi ["text-heading-xlarge"])]
                [Bs4.NavigableString "   "])).
    reflexivity.
  - apply (proj1 (proj2 (name_first_match_wins Samples.fallback_name_soup
                           Toy.world0))
             (Bs4.Tag "h1" [("class", Bs4.Multi ["pv-text-details__left-panel"])]
                [Bs4.NavigableString "Jane Doe"])).
    + reflexivity.
    + reflexivity.
  - apply (proj2 (proj2 (name_first_match_wins Toy.bare_soup Toy.world0))).
    + reflexivity.
    + reflexivity.
Defined.

Lemma list_entries_shape_example :
  _extract_experience Samples.career_soup Toy.world0
  = Return [[("title", PyStr "Engineer"); ("company", PyStr "Acme")];
            [("title", PyStr "Intern"); ("company", PyStr "N/A")]]
      Toy.world0 /\
  _extract_education Samples.career_soup Toy.world0 = Return [] Toy.world0 /\
  _extract_skills Samples.career_soup Toy.world0
  = Return ["Rocq"; "Python"] Toy.world0.
Proof. repeat split; vm_compute; reflexivity. Qed.

Lemma scraping_leaves_files_alone_witness :
  match scrape_multiple_profiles 10 Toy.batch0 "linkedin_profiles.csv"
          Toy.world2 with
  | Return _ w' | Raise _ w' =>
      files (fs w') !! "linkedin_cookies.pkl"
      = files (fs Toy.world2) !! "linkedin_cookies.pkl"
  | OutOfFuel => True
  end.
Proof.
  pose proof (proj2 (proj2 (scraping_leaves_files_alone 10 Toy.world2))
                Toy.batch0 "linkedin_profiles.csv") as H.
  destruct (scrape_multiple_profiles 10 Toy.batch0 "linkedin_profiles.csv"
              Toy.world2) as [r w'|e w'|]; [| |exact I].
  - apply (proj2 H). discriminate.
  - apply (proj2 H). discriminate.
Defined.

Lemma csv_nothing_written_witness :
  (exists w',
     _save_to_csv [] "linkedin_profiles.csv" Toy.world0 = Return tt w' /\
     fs w' = fs Toy.world0 /\ self w' = self Toy.world0) /\
  (exists w',
     _save_to_csv [no_driver_record Toy.jane_url] "linkedin_cookies.pkl"
       Toy.world2 = Return tt w' /\
     fs w' = fs Toy.world2 /\ self w' = self Toy.world2).
Proof.
  split.
  - apply csv_nothing_written. left. reflexivity.
  - apply csv_nothing_written. right. reflexivity.
Defined.

Lemma csv_table_witness :
  exists w',
    _save_to_csv Toy.records0 "linkedin_profiles.csv" Toy.world0
    = Return tt w' /\
    stored (fs w') "linkedin_profiles.csv"
    = Some (table_header
            ++ String.concat "" (table_row <$> Toy.records0))%string /\
    Forall (fun p => (String.length (about_cell p) <= 500)%nat) Toy.records0.
Proof.
  apply csv_table.
  - discriminate.
  - repeat constructor.
  - reflexivity.
Defined.

Lemma failed_save_empties_file_witness :
  exists w',
    save_cookies Toy.world_stale = Return tt w' /\
    stored (fs w') "linkedin_cookies.pkl" = Some "" /\
    (Toy.loads "" = None -> exists w'', load_cookies w' = Return false w'').
Proof.
  apply (failed_save_empties_file Toy.world_stale
           (mkFile (Toy.dumps Toy.cookies0) true true)).
  - reflexivity.
  - reflexivity.
  - reflexivity.
  - left. reflexivity.
Defined.

Lemma feed_is_endless : endless_feed (P := Feed.platform) Feed.reached.
Proof.
  intros d pos pos' Hinv Hle. unfold Feed.reached in *.
  eexists _, _, _, _. split; [reflexivity|]. split; [reflexivity|]. lia.
Qed.

Lemma endless_feed_never_ends_witness :
  _scroll_slowly (P := Feed.platform) 1000 Feed.world0 = OutOfFuel.
Proof.
  apply (proj2 (endless_feed_never_ends (P := Feed.platform) Feed.reached
                  feed_is_endless)
           1000%nat Feed.world0 0%nat 401 0%nat (JsInt 1080) 0%nat).
  - reflexivity.
  - reflexivity.
  - reflexivity.
  - unfold Feed.reached. simpl. lia.
  - lia.
Defined.

Lemma scroll_errors_swallowed_witness :
  exists src w',
    scrape_profile (P := NoScript.platform) 0 Toy.jane_url NoScript.world0
    = Return (profile_record Toy.jane_url
                (Toy.parse src)) w' /\
    served (P := NoScript.platform) src.
Proof.
  apply (scroll_errors_swallowed (P := NoScript.platform) 0 Toy.jane_url
           NoScript.world0).
  - intros script d. eexists. reflexivity.
  - unfold driver_some. simpl. discriminate.
  - intros d. reflexivity.
  - intros d. eexists. reflexivity.
Defined.

Lemma pacing_between_profiles_witness :
  exists r w4,
    scrape_profile 10 Toy.jane_url (announced 3 1 Toy.world0) = Return r w4 /\
    (exists delay,
       (5 <= delay)%Q /\ (delay <= 10)%Q /\
       batch_step 10 3 (1, Toy.jane_url) ([], 0, 0) Toy.world0
       = Return (tally ([], 0, 0) r) (waited delay w4)) /\
    (exists r3 w5,
       scrape_profile 10 Toy.john_url (announced 3 3 w4) = Return r3 w5 /\
       batch_step 10 3 (3, Toy.john_url) ([], 0, 0) w4
       = Return (tally ([], 0, 0) r3) w5).
Proof.
  destruct (scrape_profile 10 Toy.jane_url (announced 3 1 Toy.world0))
    as [r w4| |] eqn:Hrun; [|vm_compute in Hrun; discriminate..].
  exists r, w4. split; [reflexivity|]. split.
  - apply (proj1 (pacing_between_profiles 10 3 1 Toy.jane_url ([], 0, 0)
                    Toy.world0 r w4 Hrun)).
    lia.
  - destruct (scrape_profile_returns 900 10 Toy.john_url (announced 3 3 w4))
      as (r3 & w5 & Hrun3 & _).
    + intros d. vm_compute. discriminate.
    + vm_compute. lia.
    + exists r3, w5. split; [exact Hrun3|].
      apply (proj1 (proj2 (pacing_between_profiles 10 3 3 Toy.john_url
                             ([], 0, 0) w4 r3 w5 Hrun3))).
      lia.
Defined.

Lemma user_agent_from_pool_witness :
  exists draw w',
    _get_random_user_agent
      (mkWorld (self Toy.world0) (fs Toy.world0) (fun _ => draw)
         (rng_pos Toy.world0) (clock Toy.world0) (stdout Toy.world0))
    = Return
        "Mozilla/5.0 (Windows NT 10.0; Win64; x64; rv:121.0) Gecko/20100101 Firefox/121.0"
        w'.
Proof.
  apply (proj2 user_agent_from_pool).
  do 4 right. left. reflexivity.
Defined.

Lemma batch_records_in_order_witness :
  exists recs w',
    scrape_multiple_profiles 10 [Toy.jane_url; Toy.nobody_url; Toy.jane_url]
      "linkedin_profiles.csv" Toy.world0 = Return recs w' /\
    List.length recs = 3%nat /\
    List.map record_url recs
    = [Some (PyStr Toy.jane_url); Some (PyStr Toy.nobody_url);
       Some (PyStr Toy.jane_url)].
Proof.
  apply (batch_records_in_order 900 10
           [Toy.jane_url; Toy.nobody_url; Toy.jane_url]).
  - intros d. vm_compute. discriminate.
  - vm_compute. lia.
  - discriminate.
Defined.
